(** * Courtroom drama: the jury engine of [game_logic.py] and the
      evidence-impact model of [game_objects.py]

    Shallow embedding of [Evidence.calculate_impact], [Juror], [Jury] and of
    the places of [Game] that touch the jury; then of the witnesses of
    [game_objects.py], of the events, game phases and dictionaries of
    [state_management.py] and of the evidence factory and the backstory text
    of [factories.py].

    Numbers.  Python's [int] and [float] values are modelled as exact
    rationals ([Q]); the rounding of binary floating point is not modelled.
    Sentiments are compared with [==] ([Qeq]) where two different
    computations are related, and with [=] where the computation is the same.

    Exceptions.  The modelled code raises [KeyError] (a missing dictionary
    key) and, in [Game.judge_ruling], [TypeError] (a constructor called with
    an argument it does not take).  A method that mutates [self] is a
    function from the state before the call to the state after it together
    with the outcome, so that what was written before a raise is kept. *)

From Stdlib Require Import QArith Qabs.
From stdpp Require Import base option list strings gmap.

Local Open Scope Q_scope.
Local Open Scope string_scope.

(** ** Outcomes and the state-and-exception monad *)

Inductive result (A : Type) : Type :=
| Ok (a : A)
| KeyError (key : string)
| TypeError.
Arguments Ok {A} a.
Arguments KeyError {A} key.
Arguments TypeError {A}.

Definition is_ok {A} (r : result A) : bool :=
  match r with Ok _ => true | _ => false end.

Definition result_bind {A B} (r : result A) (k : A -> result B) : result B :=
  match r with
  | Ok a => k a
  | KeyError key => KeyError key
  | TypeError => TypeError
  end.

(** A method on a mutable object of type [S]. *)
Definition M (S A : Type) : Type := S -> S * result A.

Definition ret {S A} (a : A) : M S A := fun s => (s, Ok a).

Definition bind {S A B} (m : M S A) (k : A -> M S B) : M S B :=
  fun s =>
    match m s with
    | (s', Ok a) => k a s'
    | (s', KeyError key) => (s', KeyError key)
    | (s', TypeError) => (s', TypeError)
    end.

Definition lift {S A} (r : result A) : M S A := fun s => (s, r).
Definition get_state {S} : M S S := fun s => (s, Ok s).
Definition modify {S} (f : S -> S) : M S unit := fun s => (f s, Ok tt).

Declare Scope py_scope.
Delimit Scope py_scope with py.
Notation "'let?' x ':=' r 'in' k" := (result_bind r (fun x => k))
  (at level 10, x name, r at level 100, k at level 200, only parsing) : py_scope.
Notation "x '<--' m ';;' k" := (bind m (fun x => k))
  (at level 100, m at next level, right associativity, only parsing) : py_scope.
Notation "m ';;;' k" := (bind m (fun _ => k))
  (at level 100, right associativity, only parsing) : py_scope.
Local Open Scope py_scope.

(** [for x in l: body x] *)
Fixpoint for_each {S A} (l : list A) (body : A -> M S unit) : M S unit :=
  match l with
  | [] => ret tt
  | x :: l' => body x ;;; for_each l' body
  end.

(** ** Python dictionaries with string keys *)

(** [d[k]] *)
Definition dict_index {V} (d : gmap string V) (k : string) : result V :=
  match d !! k with
  | Some v => Ok v
  | None => KeyError k
  end.

(** [d.get(k, dflt)]; the argument [dflt] is evaluated by the caller. *)
Definition dict_get {V} (d : gmap string V) (k : string) (dflt : V) : V :=
  default dflt (d !! k).

(** Python's two-argument [min] and [max]: the first argument is kept unless
    the second is strictly smaller (resp. greater). *)
Definition Qltb (x y : Q) : bool := negb (Qle_bool y x).
Definition py_min (a b : Q) : Q := if Qltb b a then b else a.
Definition py_max (a b : Q) : Q := if Qltb a b then b else a.

(** ** game_objects.py: Evidence *)

(** The keys of [Evidence.metadata] that the factory sets.  [impact_metric]
    is [None] when the key is absent from the dictionary (an [Evidence] is
    created with [metadata = {}]); [synergy] is [None] for Python's [None]. *)
Record Metadata : Type := {
  subtype : string;
  meta_description : string;
  impact_metric : option Q;
  synergy : option (list string)
}.

Record Evidence : Type := {
  type : string;
  metadata : Metadata;
  authenticated : bool;
  description : string
}.

(** ** game_logic.py: Juror *)

Record Juror : Type := {
  id : Z;
  personality : string;
  bias : string;
  sentiment : Q;
  memory : list string;
  persuasiveness : Q
}.

Definition set_sentiment (v : Q) (j : Juror) : Juror :=
  {| id := id j; personality := personality j; bias := bias j;
     sentiment := v; memory := memory j; persuasiveness := persuasiveness j |}.

(** [Juror.__init__], the draw of [random.uniform(0.5, 1.5)] given. *)
Definition Juror_init (i : Z) (p b : string) (drawn : Q) : Juror :=
  {| id := i; personality := p; bias := b; sentiment := 0; memory := [];
     persuasiveness := drawn |}.

Definition personality_multipliers : gmap string (gmap string Q) :=
  {[ "Analytical" := {[ "Digital" := 1.5; "Physical" := 1.2; "Testimonial" := 0.8 ]};
     "Empathetic" := {[ "Testimonial" := 1.5; "Physical" := 1.0; "Digital" := 0.8 ]};
     "Skeptical" := {[ "Digital" := 1.0; "Physical" := 1.0; "Testimonial" := 0.7 ]};
     "DEFAULT" := {[ "Digital" := 1.0; "Physical" := 1.0; "Testimonial" := 1.0 ]} ]}.

Definition bias_modifiers : gmap string (gmap string Q) :=
  {[ "Favor Evidence-Based Arguments" :=
       {[ "Digital" := 1.3; "Physical" := 1.2; "Testimonial" := 0.9 ]};
     "Skeptical" := {[ "Digital" := 0.9; "Physical" := 0.9; "Testimonial" := 0.7 ]};
     "Empathetic" := {[ "Digital" := 0.8; "Physical" := 0.9; "Testimonial" := 1.3 ]};
     "DEFAULT" := {[ "Digital" := 1.0; "Physical" := 1.0; "Testimonial" := 1.0 ]} ]}.

(** [Evidence.calculate_impact].  The default passed to the inner [.get] is
    the expression [table["DEFAULT"][self.type]], which Python evaluates
    before the call whether or not it is needed. *)
Definition calculate_impact (self : Evidence) (juror : Juror) : result Q :=
  let? base_impact :=
    match impact_metric (metadata self) with
    | Some v => Ok v
    | None => KeyError "impact_metric"
    end in
  let? pm_default_row := dict_index personality_multipliers "DEFAULT" in
  let? pm_default := dict_index pm_default_row (type self) in
  let personality_multiplier :=
    dict_get (dict_get personality_multipliers (personality juror) ∅)
             (type self) pm_default in
  let? bm_default_row := dict_index bias_modifiers "DEFAULT" in
  let? bm_default := dict_index bm_default_row (type self) in
  let bias_modifier :=
    dict_get (dict_get bias_modifiers (bias juror) ∅) (type self) bm_default in
  Ok (base_impact * personality_multiplier * bias_modifier).

Definition mkEvidence (kind : string) (base : option Q) (syn : option (list string))
  : Evidence :=
  {| type := kind;
     metadata := {| subtype := ""; meta_description := ""; impact_metric := base;
                    synergy := syn |};
     authenticated := true; description := "" |}.

(** ** game_logic.py: Juror methods *)

(** The case context is a dictionary; only its ["special_conditions"] key is
    read here, [None] when the key is absent. *)
Record CaseContext : Type := {
  special_conditions : option (list string)
}.

(** [x in case_context.get("special_conditions", [])] *)
Definition has_condition (x : string) (case_context : CaseContext) : bool :=
  bool_decide (x ∈ default [] (special_conditions case_context)).

Definition add_sentiment (d : Q) : M Juror unit :=
  modify (fun self => set_sentiment (sentiment self + d) self).

Definition evaluate_evidence (evidence : Evidence) (case_context : CaseContext)
  : M Juror unit :=
  self <-- get_state ;;
  impact <-- lift (calculate_impact evidence self) ;;
  let impact :=
    if has_condition "media_attention" case_context then
      if String.eqb (bias self) "Favor Evidence-Based Arguments" then impact * 1.1
      else if String.eqb (bias self) "Empathetic" then impact * 0.9
      else impact
    else impact in
  let impact :=
    if has_condition "political_pressure" case_context then
      if String.eqb (bias self) "Skeptical" then impact * 1.1
      else if String.eqb (bias self) "Empathetic" then impact * 0.9
      else impact
    else impact in
  add_sentiment impact.

(** The three shapes of dictionary that the program appends to
    [Jury.trial_events]; the ['type'] key is the constructor. *)
Inductive TrialEvent : Type :=
| EvidencePresented (evidence : Evidence) (case_context : CaseContext) (impact : Q)
| WitnessTestimony (impact : Q)
| OpeningStatement (impact : Q).

Definition event_type (event : TrialEvent) : string :=
  match event with
  | EvidencePresented _ _ _ => "evidence_presented"
  | WitnessTestimony _ => "witness_testimony"
  | OpeningStatement _ => "opening_statement"
  end.

(** The body of the first loop of [Juror.deliberate]: an [if]/[elif] on
    [event['type']] with two branches and no [else]. *)
Definition replay_event (event : TrialEvent) : M Juror unit :=
  match event with
  | EvidencePresented evidence case_context _ =>
      evaluate_evidence evidence case_context
  | WitnessTestimony impact => add_sentiment impact
  | OpeningStatement _ => ret tt
  end.

(** The body of the second loop of [Juror.deliberate]. *)
Definition influence (self other_juror : Juror) : Q :=
  (persuasiveness other_juror - persuasiveness self) * 0.5.

Definition peer_step (other_juror : Juror) : M Juror unit :=
  self <-- get_state ;;
  if negb (Z.eqb (id self) (id other_juror)) then
    add_sentiment (influence self other_juror)
  else ret tt.

Definition clamp (s : Q) : Q := py_max (py_min s 5) (-5).

Definition deliberate (trial_events : list TrialEvent) (all_jurors : list Juror)
  : M Juror unit :=
  for_each trial_events replay_event ;;;
  for_each all_jurors peer_step ;;;
  modify (fun self => set_sentiment (clamp (sentiment self)) self).

(** ** game_logic.py: Jury *)

Record Jury : Type := {
  jurors : list Juror;
  trial_events : list TrialEvent
}.

Definition set_jurors (js : list Juror) (jury : Jury) : Jury :=
  {| jurors := js; trial_events := trial_events jury |}.

Definition append_event (event : TrialEvent) : M Jury unit :=
  modify (fun jury =>
    {| jurors := jurors jury; trial_events := trial_events jury ++ [event] |}).

(** The jurors are objects shared by reference: a method call on the juror
    at position [i] of [Jury.jurors] writes that position of the list back.
    The loops below only use positions of the list. *)
Definition on_juror (i : nat) (method : M Juror unit) : M Jury unit :=
  fun jury =>
    match jurors jury !! i with
    | Some juror =>
        let (juror', r) := method juror in
        (set_jurors (<[i := juror']> (jurors jury)) jury, r)
    | None => (jury, Ok tt)
    end.

(** [for juror in self.jurors: body], by position. *)
Definition for_each_juror (body : nat -> M Jury unit) : M Jury unit :=
  self <-- get_state ;;
  for_each (seq 0 (length (jurors self))) body.

Definition assess_case (evidence : Evidence) (case_context : CaseContext)
  : M Jury unit :=
  for_each_juror (fun i =>
    on_juror i (evaluate_evidence evidence case_context) ;;;
    self <-- get_state ;;
    match jurors self !! i with
    | Some juror =>
        impact <-- lift (calculate_impact evidence juror) ;;
        append_event (EvidencePresented evidence case_context impact)
    | None => ret tt
    end).

(** One iteration of the loop of [Jury.deliberate_phase]: the juror at
    position [i] deliberates on the shared log and the shared juror list. *)
Definition deliberate_juror (i : nat) : M Jury unit :=
  self <-- get_state ;;
  on_juror i (deliberate (trial_events self) (jurors self)).

(** [Jury.deliberate_phase] with the jurors visited in the given order of
    positions; the source visits them in list order. *)
Definition deliberate_phase_in (order : list nat) : M Jury unit :=
  for_each order deliberate_juror.

Definition deliberate_phase : M Jury unit :=
  for_each_juror deliberate_juror.

(** [sum(juror.sentiment for juror in self.jurors)]: from 0, left to right. *)
Definition total_sentiment (self : Jury) : Q :=
  fold_left Qplus (map sentiment (jurors self)) 0.

Definition get_verdict (self : Jury) : string :=
  if Qltb 0 (total_sentiment self) then "Guilty" else "Not Guilty".

Definition get_sentiment_label (s : Q) : string :=
  if Qltb s 0 then "Negative"
  else if Qltb 0 s then "Positive"
  else "Neutral".

(** ** game_logic.py: the places of Game that touch the jury

    The state is [Game.jury]; [Game.selected_evidence] (a dictionary from
    description to evidence, in insertion order) and the case context are
    arguments.  What comes from [random] and from [input] is an argument
    too. *)

(** The [try] branch of [Game.opening_statements]; [impact] is the draw of
    [random.randint(1, 2)]. *)
Definition opening_statements (impact : Q) : M Jury unit :=
  append_event (OpeningStatement impact).

(** [for juror in self.jury.jurors: juror.sentiment += d] *)
Definition bump_jurors (d : Q) : M Jury unit :=
  for_each_juror (fun i => on_juror i (add_sentiment d)).

(** The two conditions of the synergy check of [Game.examine_witnesses]. *)
Definition synergy_activated (item other_item : string * Evidence) : bool :=
  let '(desc, evidence) := item in
  let '(other_desc, other_evidence) := other_item in
  if negb (String.eqb desc other_desc) then
    match synergy (metadata evidence), synergy (metadata other_evidence) with
    | Some syn, Some other_syn =>
        bool_decide (type other_evidence ∈ syn) && bool_decide (type evidence ∈ other_syn)
    | _, _ => false
    end
  else false.

Definition check_synergy (selected_evidence : list (string * Evidence)) : M Jury unit :=
  for_each selected_evidence (fun item =>
    for_each selected_evidence (fun other_item =>
      if synergy_activated item other_item then bump_jurors 1 else ret tt)).

(** [Game.judge_ruling].  Its first statement is [PromptManager(self.config)]
    with the [PromptManager] of [ai_module.py], whose [__init__] takes no
    argument beside [self]: the call raises [TypeError], whatever the
    objection and the question, and the rest of the method is not reached. *)
Definition judge_ruling (objection_type question : string) : M Jury string :=
  lift TypeError.

(** [Game.raise_objection] from the call of the judge on; [objection_type]
    is the objection that the player chose. *)
Definition raise_objection (objection_type question : string) : M Jury unit :=
  ruling <-- judge_ruling objection_type question ;;
  if String.eqb ruling "Sustained" then bump_jurors 1 else bump_jurors (-1).

(** What one question of [Game.examine_witnesses] takes from outside. *)
Record Question : Type := {
  question : string;                   (* input("Enter your question: ") *)
  testimony_impact : Q;                (* random.randint(-1, 2) *)
  player_objection : option string;    (* the objection chosen, when the player
                                          answers "yes" *)
  opposing_objection : option string   (* random.choice(...), when
                                          random.random() < 0.3 *)
}.

(** One iteration of the question loop of [Game.examine_witnesses], from
    the synergy check on: the witness has answered. *)
Definition examine_question (selected_evidence : list (string * Evidence))
  (q : Question) : M Jury unit :=
  check_synergy selected_evidence ;;;
  append_event (WitnessTestimony (testimony_impact q)) ;;;
  match player_objection q with
  | Some objection_type => raise_objection objection_type (question q)
  | None => ret tt
  end ;;;
  match opposing_objection q with
  | Some objection_type =>
      ruling <-- judge_ruling objection_type (question q) ;;
      if String.eqb ruling "Sustained" then bump_jurors 1 else bump_jurors (-1)
  | None => ret tt
  end.

(** [for q_num in range(1, 4)]: the three questions put to one witness. *)
Definition examine_witness (selected_evidence : list (string * Evidence))
  (questions : Question * Question * Question) : M Jury unit :=
  let '(q1, q2, q3) := questions in
  for_each [q1; q2; q3] (examine_question selected_evidence).

(** [Game.examine_witnesses]: one entry per witness of
    [selected_witness_order]. *)
Definition examine_witnesses (selected_evidence : list (string * Evidence))
  (witnesses : list (Question * Question * Question)) : M Jury unit :=
  for_each witnesses (examine_witness selected_evidence).

Definition deliberation_and_verdict (selected_evidence : list (string * Evidence))
  (case_context : CaseContext) : M Jury string :=
  for_each selected_evidence (fun item => assess_case (snd item) case_context) ;;;
  deliberate_phase ;;;
  self <-- get_state ;;
  ret (get_verdict self).

(** ** Definitions that follow the specification's words *)

(** The sum of a list of numbers, as a mathematical sum. *)
Definition Qsum (l : list Q) : Q := fold_right Qplus 0 l.

(** Look up [table[key][kind]], falling back to the ["DEFAULT"] row when
    [key] is not a row of the table or its row has no entry for [kind]. *)
Definition lookup_with_default (table : gmap string (gmap string Q))
  (key kind : string) : option Q :=
  match table !! key with
  | Some row =>
      match row !! kind with
      | Some v => Some v
      | None => table !! "DEFAULT" ≫= (.!! kind)
      end
  | None => table !! "DEFAULT" ≫= (.!! kind)
  end.

(** The kinds of the ["DEFAULT"] rows. *)
Definition known_kinds : list string := ["Digital"; "Physical"; "Testimonial"].


(** [special_conditions] contains the tag. *)
Definition contains_condition (case_context : CaseContext) (tag : string) : Prop :=
  tag ∈ default [] (special_conditions case_context).

#[global] Instance contains_condition_dec (case_context : CaseContext) (tag : string)
  : Decision (contains_condition case_context tag) :=
  decide (tag ∈ default [] (special_conditions case_context)).

(** The nudges of the specification: +10% and -10% as factors. *)
Definition media_nudge (b : string) : Q :=
  if decide (b = "Favor Evidence-Based Arguments") then 1.1
  else if decide (b = "Empathetic") then 0.9
  else 1.

Definition political_nudge (b : string) : Q :=
  if decide (b = "Skeptical") then 1.1
  else if decide (b = "Empathetic") then 0.9
  else 1.

Definition context_factor (case_context : CaseContext) (b : string) : Q :=
  (if decide (contains_condition case_context "media_attention")
   then media_nudge b else 1)
  * (if decide (contains_condition case_context "political_pressure")
     then political_nudge b else 1).

(** A juror that differs from [j] in its sentiment at most. *)
Definition only_sentiment (j j' : Juror) : Prop :=
  j' = set_sentiment (sentiment j') j.

(** The other jurors of the list: those whose [id] differs from that of
    [self], in list order. *)
Definition peers (self : Juror) (all_jurors : list Juror) : list Juror :=
  filter (fun other_juror => id self ≠ id other_juror) all_jurors.

(** The key that [calculate_impact] misses on this evidence, if any. *)
Definition evidence_error (e : Evidence) : option string :=
  match impact_metric (metadata e) with
  | None => Some "impact_metric"
  | Some _ => if decide (type e ∈ known_kinds) then None else Some (type e)
  end.

(** The first key missed while the events are replayed, if any. *)
Fixpoint replay_error (events : list TrialEvent) : option string :=
  match events with
  | [] => None
  | EvidencePresented e _ _ :: events' =>
      match evidence_error e with
      | Some k => Some k
      | None => replay_error events'
      end
  | _ :: events' => replay_error events'
  end.

Definition outcome_of (err : option string) : result unit :=
  match err with
  | None => Ok tt
  | Some k => KeyError k
  end.

(** An evidence record on which [calculate_impact] finds all its keys. *)
Definition evidence_ok (e : Evidence) : Prop :=
  is_Some (impact_metric (metadata e)) /\ type e ∈ known_kinds.

Definition event_ok (event : TrialEvent) : Prop :=
  match event with
  | EvidencePresented e _ _ => evidence_ok e
  | _ => True
  end.

(** The range of [random.uniform(0.5, 1.5)]. *)
Definition persuasiveness_in_range (j : Juror) : Prop :=
  0.5 <= persuasiveness j <= 1.5.

(** What a juror reads of the jurors of the list passed to [deliberate]. *)
Definition roster (js : list Juror) : list (Z * Q) :=
  map (fun j => (id j, persuasiveness j)) js.

(** Every juror of [js] after its own [deliberate] on the log [events] and
    the list [js] as it was before any call. *)
Definition deliberated (events : list TrialEvent) (js : list Juror) : list Juror :=
  map (fun j => fst (deliberate events js j)) js.

(** Every juror's sentiment moved by [d], nothing else touched. *)
Definition bump (d : Q) (jury : Jury) : Jury :=
  set_jurors (map (fun j => set_sentiment (sentiment j + d) j) (jurors jury)) jury.

(** The number of ordered pairs of selected evidence that activate a
    synergy. *)
Definition synergy_count (selected_evidence : list (string * Evidence)) : nat :=
  length (List.filter (fun pair => synergy_activated (fst pair) (snd pair))
                      (list_prod selected_evidence selected_evidence)).

Definition log_event (event : TrialEvent) (jury : Jury) : Jury :=
  {| jurors := jurors jury; trial_events := trial_events jury ++ [event] |}.

(** An objection is made to the question, by the player or by the opposing
    side. *)
Definition objected (q : Question) : bool :=
  match player_objection q, opposing_objection q with
  | None, None => false
  | _, _ => true
  end.

(** ** Sample data *)

Definition juror1 : Juror := Juror_init 1 "Analytical" "Skeptical" 1.
Definition juror2 : Juror := Juror_init 2 "Empathetic" "Empathetic" 1.5.
Definition juror3 : Juror := Juror_init 3 "Unknown" "Favor Evidence-Based Arguments" 0.5.

Definition digital_evidence : Evidence :=
  mkEvidence "Digital" (Some 2) (Some ["Testimonial"]).
Definition testimonial_evidence : Evidence :=
  mkEvidence "Testimonial" (Some 1) (Some ["Digital"]).
(** The evidence template of [tests/test_court_session.py]. *)
Definition test_evidence : Evidence := mkEvidence "Test" (Some 1) (Some []).

Definition media_case : CaseContext :=
  {| special_conditions := Some ["media_attention"; "political_pressure"] |}.
Definition plain_case : CaseContext := {| special_conditions := None |}.

Definition jury1 : Jury := {| jurors := [juror1]; trial_events := [] |}.
Definition jury3 : Jury :=
  {| jurors := [juror1; juror2; juror3];
     trial_events := [EvidencePresented digital_evidence media_case 2.7;
                      WitnessTestimony 2; OpeningStatement 1] |}.
Definition split_jury : Jury :=
  {| jurors := [set_sentiment 1 juror1; set_sentiment (-1) juror2];
     trial_events := [] |}.

Definition selected_pair : list (string * Evidence) :=
  [("server logs", digital_evidence); ("statement", testimonial_evidence)].
(** A log as no run of [Jury.assess_case] leaves it: its second event
    carries the evidence of the test template. *)
Definition tainted_jury : Jury :=
  {| jurors := [set_sentiment (-1) juror1; set_sentiment (-1) juror2];
     trial_events := [EvidencePresented digital_evidence plain_case 2.7;
                      EvidencePresented test_evidence plain_case 1] |}.

Definition quiet_question : Question :=
  {| question := "Where were you that night?"; testimony_impact := 0;
     player_objection := None; opposing_objection := None |}.

(** ** game_logic.py: the constructor of Jury and helpers for its loops *)

(** [Jury.__init__]; [draw i] is what [random] gives for juror [i]: the
    personality, the bias and the persuasiveness. *)
Definition Jury_init (number_of_jurors : Z) (draw : Z -> string * string * Q) : Jury :=
  {| jurors := map (fun i => let '(p, b, u) := draw i in Juror_init i p b u)
                   (seqZ 1 number_of_jurors);
     trial_events := [] |}.

(** The two adjustments that [Juror.evaluate_evidence] makes to the impact
    before adding it, as a function of the juror's bias. *)
Definition adjust_impact (case_context : CaseContext) (b : string) (impact : Q) : Q :=
  let impact :=
    if has_condition "media_attention" case_context then
      if String.eqb b "Favor Evidence-Based Arguments" then impact * 1.1
      else if String.eqb b "Empathetic" then impact * 0.9
      else impact
    else impact in
  let impact :=
    if has_condition "political_pressure" case_context then
      if String.eqb b "Skeptical" then impact * 1.1
      else if String.eqb b "Empathetic" then impact * 0.9
      else impact
    else impact in
  impact.

(** The value of [evidence.calculate_impact(juror)] when it returns. *)
Definition impact_of (e : Evidence) (j : Juror) : Q :=
  match calculate_impact e j with
  | Ok i => i
  | _ => 0
  end.

(** What one evaluation of the evidence adds to the juror's sentiment. *)
Definition evidence_weight (e : Evidence) (case_context : CaseContext) (j : Juror) : Q :=
  adjust_impact case_context (bias j) (impact_of e j).

(** The juror after [evaluate_evidence] returned, and the log entry that
    [Jury.assess_case] appends for it. *)
Definition evaluated (e : Evidence) (case_context : CaseContext) (j : Juror) : Juror :=
  set_sentiment (sentiment j + evidence_weight e case_context j) j.

Definition presented (e : Evidence) (case_context : CaseContext) (j : Juror) : TrialEvent :=
  EvidencePresented e case_context (impact_of e j).

(** The jury inside the loop of [Jury.assess_case] when the first [a] jurors
    of [s] have been served, [log0] being the log before the call. *)
Definition assessed_upto (e : Evidence) (case_context : CaseContext)
  (s : list Juror) (log0 : list TrialEvent) (a : nat) : Jury :=
  {| jurors := map (evaluated e case_context) (take a s) ++ drop a s;
     trial_events := log0 ++ map (presented e case_context) (take a s) |}.

(** The body of the loop of [Jury.assess_case] for the juror at position
    [i]. *)
Definition assess_juror (e : Evidence) (case_context : CaseContext) (i : nat)
  : M Jury unit :=
  on_juror i (evaluate_evidence e case_context) ;;;
  self <-- get_state ;;
  match jurors self !! i with
  | Some juror =>
      impact <-- lift (calculate_impact e juror) ;;
      append_event (EvidencePresented e case_context impact)
  | None => ret tt
  end.

(** [jury'] is [jury] with every sentiment moved by [d] (up to [==]) and
    [log] appended to the trial events; nothing else differs. *)
Definition shifted (d : Q) (log : list TrialEvent) (jury jury' : Jury) : Prop :=
  trial_events jury' = (trial_events jury ++ log)%list /\
  Forall2 (fun j j' => only_sentiment j j' /\ sentiment j' == sentiment j + d)
          (jurors jury) (jurors jury').

(** The questions that get their synergy check and their log entry: those
    up to the first one that meets an objection, that one included. *)
Fixpoint examined (questions : list Question) : list Question :=
  match questions with
  | [] => []
  | q :: questions' => if objected q then [q] else q :: examined questions'
  end.

Definition questions_of (questions : Question * Question * Question) : list Question :=
  let '(q1, q2, q3) := questions in [q1; q2; q3].

(** ** game_objects.py: Witness

    The witness's [ai_manager] and [prompt_manager] are outside the model:
    the prompt is built from the state without changing it, and the string
    that the model answers is an argument of [respond]. *)

Module Witness.

Record t : Type := {
  name : string;
  occupation : string;
  personalities : list string;
  relationship : string;
  backstory : string;
  stress : Z;
  base_stress : Z;
  hidden_motive : string;
  (* an OrderedDict from question to answer, in insertion order *)
  testimony : list (string * string);
  (* a deque(maxlen=20) of question and answer, oldest first *)
  memory : list (string * string)
}.

(** [Witness.__init__] *)
Definition init (name occupation : string) (personalities : list string)
  (relationship backstory : string) (base_stress : Z) (hidden_motive : string) : t :=
  {| name := name; occupation := occupation; personalities := personalities;
     relationship := relationship; backstory := backstory; stress := base_stress;
     base_stress := base_stress; hidden_motive := hidden_motive;
     testimony := []; memory := [] |}.

Definition set_stress (v : Z) (w : t) : t :=
  {| name := name w; occupation := occupation w; personalities := personalities w;
     relationship := relationship w; backstory := backstory w; stress := v;
     base_stress := base_stress w; hidden_motive := hidden_motive w;
     testimony := testimony w; memory := memory w |}.

Definition set_records (tm mem : list (string * string)) (w : t) : t :=
  {| name := name w; occupation := occupation w; personalities := personalities w;
     relationship := relationship w; backstory := backstory w; stress := stress w;
     base_stress := base_stress w; hidden_motive := hidden_motive w;
     testimony := tm; memory := mem |}.

Definition stress_modifiers : gmap string (gmap string Z) :=
  {[ "Aggressive" := {[ "Nervous" := 3; "Defensive" := 2; "Evasive" := 2; "DEFAULT" := 2 ]};
     "Neutral" := {[ "DEFAULT" := 1 ]};
     "Friendly" := {[ "Suspicious" := 1; "Evasive" := -2; "DEFAULT" := -1 ]} ]}%Z.

(** [Witness.update_stress].  [next(generator, default)] reads the first
    personality only; [stress_modifiers[strategy]] is evaluated when the
    generator yields, so only if there is a personality. *)
Definition update_stress (strategy : string) : M t unit :=
  self <-- get_state ;;
  let default_modifier :=
    dict_get (dict_get stress_modifiers strategy ∅) "DEFAULT" 0%Z in
  personality_modifier <--
    lift match personalities self with
         | p :: _ =>
             let? row := dict_index stress_modifiers strategy in
             Ok (dict_get row p default_modifier)
         | [] => Ok default_modifier
         end ;;
  modify (set_stress (Z.max (Z.min (stress self + personality_modifier) 10) 0)).

(** [d[k] = v] on an OrderedDict: an existing key keeps its place. *)
Fixpoint odict_set (k v : string) (d : list (string * string)) : list (string * string) :=
  match d with
  | [] => [(k, v)]
  | (k', v') :: d' =>
      if String.eqb k' k then (k', v) :: d' else (k', v') :: odict_set k v d'
  end.

Fixpoint odict_get (k : string) (d : list (string * string)) : option string :=
  match d with
  | [] => None
  | (k', v') :: d' => if String.eqb k' k then Some v' else odict_get k d'
  end.

Definition maxlen : nat := 20.

(** [d.append(x)] on a deque of at most [maxlen] elements: when it is full
    the oldest element is dropped. *)
Definition deque_append {A} (x : A) (d : list A) : list A :=
  if decide (maxlen ≤ length d)%nat then drop 1 d ++ [x] else d ++ [x].

(** [Witness.respond]; [ai_response] is what the model answered and [roll]
    the value of [random.random()]. *)
Definition respond (question strategy ai_response : string) (roll : Q) : M t string :=
  update_stress strategy ;;;
  self <-- get_state ;;
  let response :=
    if (7 <? stress self)%Z && Qltb roll 0.3 then
      ai_response ++ " (Thinking about hidden motive: " ++ hidden_motive self ++ ")"
    else ai_response in
  modify (set_records (odict_set question response (testimony self))
                      (deque_append (question, response) (memory self))) ;;;
  ret response.

End Witness.

(** ** game_objects.py and state_management.py: dictionaries of evidence and
       witnesses

    A dictionary that is read key by key is a record of optional values:
    [None] when the dictionary lacks the key.  Keys that the code does not
    read are left out. *)

Record EvidenceDict : Type := {
  d_type : option string;
  d_metadata : option Metadata;
  d_authenticated : option bool;
  d_description : option string
}.

(** [data[key]] *)
Definition index {V} (key : string) (value : option V) : result V :=
  match value with
  | Some v => Ok v
  | None => KeyError key
  end.

(** [Evidence.to_dict], and [GameSerializer._serialize_evidence], which has
    the same body. *)
Definition to_dict (self : Evidence) : EvidenceDict :=
  {| d_type := Some (type self); d_metadata := Some (metadata self);
     d_authenticated := Some (authenticated self);
     d_description := Some (description self) |}.

(** [Evidence.from_dict], and [GameSerializer._deserialize_evidence], which
    has the same body: the constructor call reads ["type"] and ["metadata"],
    then the two assignments read ["authenticated"] and ["description"]. *)
Definition from_dict (data : EvidenceDict) : result Evidence :=
  let? t := index "type" (d_type data) in
  let? m := index "metadata" (d_metadata data) in
  let? a := index "authenticated" (d_authenticated data) in
  let? d := index "description" (d_description data) in
  Ok {| type := t; metadata := m; authenticated := a; description := d |}.

(** [Evidence.authenticate] *)
Definition authenticate : M Evidence bool :=
  fun self =>
    ({| type := type self; metadata := metadata self; authenticated := true;
        description := description self |}, Ok true).

Module Serializer.

Record WitnessDict : Type := {
  name : option string;
  occupation : option string;
  personalities : option (list string);
  relationship : option string;
  backstory : option string;
  stress : option Z;
  testimony : option (list (string * string));
  memory : option (list (string * string));
  base_stress : option Z;
  hidden_motive : option string
}.

(** [GameSerializer._serialize_witness] *)
Definition serialize_witness (witness : Witness.t) : WitnessDict :=
  {| name := Some (Witness.name witness);
     occupation := Some (Witness.occupation witness);
     personalities := Some (Witness.personalities witness);
     relationship := Some (Witness.relationship witness);
     backstory := Some (Witness.backstory witness);
     stress := Some (Witness.stress witness);
     testimony := Some (Witness.testimony witness);
     memory := Some (Witness.memory witness);
     base_stress := Some (Witness.base_stress witness);
     hidden_motive := Some (Witness.hidden_motive witness) |}.

(** [OrderedDict(items)]: the pairs are inserted one after the other. *)
Definition odict_of_items (items : list (string * string)) : list (string * string) :=
  fold_left (fun d item => Witness.odict_set (fst item) (snd item) d) items [].

(** [deque(items, maxlen=20)] keeps the last 20 elements. *)
Definition deque_of_items {A} (items : list A) : list A :=
  drop (length items - Witness.maxlen) items.

(** [GameSerializer._deserialize_witness]: the keys are read in the order of
    the arguments of the constructor call, then ["stress"], ["testimony"] and
    ["memory"].  The clients that the constructor creates from [config] are
    outside the model. *)
Definition deserialize_witness (witness_dict : WitnessDict) : result Witness.t :=
  let? n := index "name" (name witness_dict) in
  let? o := index "occupation" (occupation witness_dict) in
  let? p := index "personalities" (personalities witness_dict) in
  let? r := index "relationship" (relationship witness_dict) in
  let? b := index "backstory" (backstory witness_dict) in
  let? bs := index "base_stress" (base_stress witness_dict) in
  let? h := index "hidden_motive" (hidden_motive witness_dict) in
  let witness := Witness.init n o p r b bs h in
  let? s := index "stress" (stress witness_dict) in
  let witness := Witness.set_stress s witness in
  let? t := index "testimony" (testimony witness_dict) in
  let? m := index "memory" (memory witness_dict) in
  Ok (Witness.set_records (odict_of_items t) (deque_of_items m) witness).

End Serializer.

(** ** state_management.py: events and game phases

    A listener is a callable that the program only stores, compares and
    calls: it is modelled by a number, and calling it is recorded in the
    list of calls that a method returns.  What a listener does when it is
    called is outside the model. *)

Inductive GamePhase : Type :=
| MAIN_MENU
| CASE_PREPARATION
| COURTROOM_PROCEEDINGS
| DELIBERATION
| VERDICT
| GAME_OVER.

#[global] Instance GamePhase_eq_dec : EqDecision GamePhase.
Proof. solve_decision. Defined.

(** The dictionary that [GameState] passes as the data of an event. *)
Record StateChange : Type := {
  new_phase : GamePhase;
  context : option (gmap string string)
}.

Module Event.
Record t : Type := {
  name : string;
  data : option StateChange
}.
End Event.

Definition Listener : Type := nat.

(** A call [listener(event)]. *)
Definition Call : Type := (Listener * Event.t)%type.

(** The outcome of a call that may raise [ValueError]. *)
Inductive raised (A : Type) : Type :=
| Returned (a : A)
| ValueError.
Arguments Returned {A} a.
Arguments ValueError {A}.

Record EventManager : Type := {
  listeners : gmap string (list Listener)
}.

Definition EventManager_init : EventManager := {| listeners := ∅ |}.

Definition subscribe (event_name : string) (listener : Listener) (self : EventManager)
  : EventManager :=
  let ls := match listeners self !! event_name with
            | Some l => l
            | None => []
            end in
  {| listeners := <[event_name := (ls ++ [listener])%list]> (listeners self) |}.

(** [l.remove(x)]: the first element equal to [x] is removed; [None] stands
    for the [ValueError] raised when there is none. *)
Fixpoint list_remove (x : Listener) (l : list Listener) : option (list Listener) :=
  match l with
  | [] => None
  | y :: l' =>
      if decide (y = x) then Some l'
      else match list_remove x l' with
           | Some r => Some (y :: r)
           | None => None
           end
  end.

Definition unsubscribe (event_name : string) (listener : Listener) (self : EventManager)
  : raised EventManager :=
  match listeners self !! event_name with
  | Some l =>
      match list_remove listener l with
      | Some l' => Returned {| listeners := <[event_name := l']> (listeners self) |}
      | None => ValueError
      end
  | None => Returned self
  end.

(** [EventManager.emit]: the calls made, in order. *)
Definition emit (event : Event.t) (self : EventManager) : list Call :=
  match listeners self !! Event.name event with
  | Some l => map (fun listener => (listener, event)) l
  | None => []
  end.

(** [GameState], without its fields [active_case], [player_role] and
    [completed_cases], which the methods below neither read nor write. *)
Record GameState : Type := {
  event_manager : EventManager;
  observers : list nat;
  current_phase : GamePhase;
  history : list GamePhase;
  player_reputation : Z;
  unlocked_cases : Z
}.

Definition GameState_init (event_manager : EventManager) : GameState :=
  {| event_manager := event_manager; observers := []; current_phase := MAIN_MENU;
     history := []; player_reputation := 0; unlocked_cases := 1 |}.

Definition add_observer (observer : nat) (self : GameState) : GameState :=
  {| event_manager := event_manager self; observers := (observers self ++ [observer])%list;
     current_phase := current_phase self; history := history self;
     player_reputation := player_reputation self;
     unlocked_cases := unlocked_cases self |}.

Definition set_phase (phase : GamePhase) (h : list GamePhase) (self : GameState)
  : GameState :=
  {| event_manager := event_manager self; observers := observers self;
     current_phase := phase; history := h;
     player_reputation := player_reputation self;
     unlocked_cases := unlocked_cases self |}.

Definition state_changed (phase : GamePhase) (ctx : option (gmap string string))
  : Event.t :=
  {| Event.name := "state_changed";
     Event.data := Some {| new_phase := phase; context := ctx |} |}.

(** [GameState.transition_to]: the state after the call and the calls made
    by [emit]. *)
Definition transition_to (phase : GamePhase) (ctx : option (gmap string string))
  (self : GameState) : GameState * list Call :=
  let self' := set_phase phase (history self ++ [current_phase self])%list self in
  (self', emit (state_changed phase ctx) (event_manager self')).

(** [GameState.undo]: [history.pop()] takes the last element. *)
Definition undo (self : GameState) : GameState * list Call :=
  match last (history self) with
  | Some phase =>
      let self' := set_phase phase (removelast (history self)) self in
      (self', emit (state_changed phase None) (event_manager self'))
  | None => (self, [])
  end.

(** A sequence of calls of [transition_to] and [undo], with the calls made
    in order. *)
Inductive StateOp : Type :=
| Transition (phase : GamePhase) (ctx : option (gmap string string))
| Undo.

Definition run_op (op : StateOp) (self : GameState) : GameState * list Call :=
  match op with
  | Transition phase ctx => transition_to phase ctx self
  | Undo => undo self
  end.

Fixpoint run_ops (ops : list StateOp) (self : GameState) : GameState * list Call :=
  match ops with
  | [] => (self, [])
  | op :: ops' =>
      let (self1, calls1) := run_op op self in
      let (self2, calls2) := run_ops ops' self1 in
      (self2, (calls1 ++ calls2)%list)
  end.

(** ** factories.py: EvidenceBuilder and EvidenceFactory

    What [random] gives is an argument: [sample population k] is the list
    that [random.sample] returns when it returns, and [roll i] is the draw
    of [random.uniform(0.0, 1.0)] for the i-th piece of evidence. *)

(** The outcome of a factory call: a value, a [KeyError], the [ValueError] of
    [random.sample] or a [ZeroDivisionError]. *)
Inductive built (A : Type) : Type :=
| Built (a : A)
| MissingKey (key : string)
| SampleError
| DivisionByZero.
Arguments Built {A} a.
Arguments MissingKey {A} key.
Arguments SampleError {A}.
Arguments DivisionByZero {A}.

Definition built_bind {A B} (r : built A) (k : A -> built B) : built B :=
  match r with
  | Built a => k a
  | MissingKey key => MissingKey key
  | SampleError => SampleError
  | DivisionByZero => DivisionByZero
  end.

Notation "'let!' x ':=' r 'in' k" := (built_bind r (fun x => k))
  (at level 10, x name, r at level 100, k at level 200, only parsing) : py_scope.

(** [d[key]], raising [KeyError] *)
Definition need {V} (key : string) (value : option V) : built V :=
  match value with
  | Some v => Built v
  | None => MissingKey key
  end.

(** An entry of the evidence template file.  A key that the file may lack
    is an option; the value of ["synergy"] may be [null]. *)
Record Template : Type := {
  t_name : option string;
  t_type : option string;
  t_subtype : option string;
  t_description : option string;
  t_impact_metric : option Q;
  t_synergy : option (option (list string))
}.

(** The case context as [EvidenceBuilder] reads it. *)
Record BuilderContext : Type := {
  ctx_type : option string;
  difficulty_modifiers : option (gmap string Q)
}.

(** [EvidenceBuilder.generate_description], on the evidence that
    [set_base_type] and [add_metadata] have prepared. *)
Definition generate_description (case_context : BuilderContext) (evidence : Evidence)
  : built Evidence :=
  let with_description d :=
    {| type := type evidence; metadata := metadata evidence;
       authenticated := authenticated evidence; description := d |} in
  if String.eqb (type evidence) "Digital" then
    let! t := need "type" (ctx_type case_context) in
    Built (with_description
             ("Digital evidence: " ++ subtype (metadata evidence)
              ++ " related to the " ++ t ++ " case."))
  else if String.eqb (type evidence) "Physical" then
    Built (with_description
             ("Physical evidence: " ++ subtype (metadata evidence)
              ++ " found at the scene."))
  else if String.eqb (type evidence) "Testimonial" then
    Built (with_description
             ("Testimonial evidence: " ++ subtype (metadata evidence)
              ++ " from a witness."))
  else
    let! t := need "type" (ctx_type case_context) in
    Built (with_description ("Evidence relating to " ++ t ++ " case.")).

Definition authentication_modifier (case_context : BuilderContext) : Q :=
  dict_get (default ∅ (difficulty_modifiers case_context)) "evidence_authentication" 1.0.

(** [EvidenceBuilder.authenticate_evidence] *)
Definition authenticate_evidence (case_context : BuilderContext) (authentication_roll : Q)
  (evidence : Evidence) : Evidence :=
  {| type := type evidence; metadata := metadata evidence;
     authenticated :=
       Qltb authentication_roll (0.7 * authentication_modifier case_context);
     description := description evidence |}.

(** The builder chain of [EvidenceFactory.generate_evidence] for one
    template. *)
Definition build_evidence (case_context : BuilderContext) (template : Template)
  (authentication_roll : Q) : built Evidence :=
  let! ty := need "type" (t_type template) in
  let! st := need "subtype" (t_subtype template) in
  let! ds := need "description" (t_description template) in
  let! im := need "impact_metric" (t_impact_metric template) in
  let syn := default (Some []) (t_synergy template) in
  let evidence :=
    {| type := ty;
       metadata := {| subtype := st; meta_description := ds; impact_metric := Some im;
                      synergy := syn |};
       authenticated := false; description := "" |} in
  let! evidence := generate_description case_context evidence in
  Built (authenticate_evidence case_context authentication_roll evidence).

(** [[t for t in self.templates if t["name"] in evidence_templates]] *)
Fixpoint available_templates (templates : list Template) (evidence_templates : list string)
  : built (list Template) :=
  match templates with
  | [] => Built []
  | t :: templates' =>
      let! n := need "name" (t_name t) in
      let! rest := available_templates templates' evidence_templates in
      Built (if bool_decide (n ∈ evidence_templates) then t :: rest else rest)
  end.

(** [random.sample(population, k)], which raises [ValueError] when [k] is
    negative or larger than the population. *)
Definition random_sample (sample : list Template -> nat -> list Template)
  (population : list Template) (k : Z) : built (list Template) :=
  if ((k <? 0) || (Z.of_nat (length population) <? k))%Z
  then SampleError
  else Built (sample population (Z.to_nat k)).

Definition select_templates (sample : list Template -> nat -> list Template)
  (available : list Template) (num_evidence : Z) : built (list Template) :=
  let len := Z.of_nat (length available) in
  if (len <? num_evidence)%Z then
    if (len =? 0)%Z then DivisionByZero
    else
      let repeated := concat (replicate (Z.to_nat (num_evidence / len)) available) in
      let! extra := random_sample sample available (num_evidence mod len) in
      Built (repeated ++ extra)%list
  else random_sample sample available num_evidence.

Fixpoint build_all (case_context : BuilderContext) (roll : nat -> Q) (i : nat)
  (selected : list Template) : built (list Evidence) :=
  match selected with
  | [] => Built []
  | template :: selected' =>
      let! evidence := build_evidence case_context template (roll i) in
      let! rest := build_all case_context roll (S i) selected' in
      Built (evidence :: rest)
  end.

(** [EvidenceFactory.generate_evidence] *)
Definition generate_evidence (sample : list Template -> nat -> list Template)
  (roll : nat -> Q) (templates : list Template) (num_evidence : Z)
  (evidence_templates : list string) (case_context : BuilderContext)
  : built (list Evidence) :=
  let! available := available_templates templates evidence_templates in
  let! selected := select_templates sample available num_evidence in
  build_all case_context roll 0 selected.

(** ** More sample data *)

Definition leaning_jury : Jury :=
  {| jurors := [set_sentiment 2 juror1; set_sentiment (-1) juror2]; trial_events := [] |}.
Definition convinced_jury : Jury :=
  {| jurors := [set_sentiment 2 juror1; set_sentiment 0 juror2]; trial_events := [] |}.

Definition contested_question : Question :=
  {| question := "Did you see the defendant leave?"; testimony_impact := 2;
     player_objection := Some "Hearsay"; opposing_objection := None |}.

Definition nervous_witness : Witness.t :=
  Witness.init "Ann Lee" "Senior Employee at TechCorp" ["Nervous"; "Evasive"]
               "Colleague" "Ann Lee has been with TechCorp for 4 years." 6
               "Fear of reprisal".

Definition three_transitions : list (GamePhase * option (gmap string string)) :=
  [(CASE_PREPARATION, None); (COURTROOM_PROCEEDINGS, None); (DELIBERATION, None)].

Definition logs_template : Template :=
  {| t_name := Some "Server Logs"; t_type := Some "Digital";
     t_subtype := Some "Access log"; t_description := Some "Logs of the file server";
     t_impact_metric := Some 2; t_synergy := Some (Some ["Testimonial"]) |}.
Definition statement_template : Template :=
  {| t_name := Some "Statement"; t_type := Some "Testimonial";
     t_subtype := Some "Affidavit"; t_description := Some "A sworn statement";
     t_impact_metric := Some 1; t_synergy := None |}.
(** The evidence template of [tests/test_court_session.py]. *)
Definition test_template : Template :=
  {| t_name := Some "Test Evidence"; t_type := Some "Test"; t_subtype := Some "Test";
     t_description := Some "Test Description"; t_impact_metric := Some 1;
     t_synergy := Some (Some []) |}.

Definition theft_context : BuilderContext :=
  {| ctx_type := Some "theft"; difficulty_modifiers := None |}.

(** A sample that takes the first [k] elements, and draws that are all 1/2. *)
Definition first_k (population : list Template) (k : nat) : list Template :=
  take k population.
Definition half_roll (i : nat) : Q := 0.5.

(** ** Texts: the witness's previous testimony and the backstory *)

From stdpp Require Import pretty.

Local Open Scope Q_scope.
Local Open Scope string_scope.
Local Open Scope py_scope.

Definition newline : string := String (Ascii.ascii_of_nat 10) "".

(** The loop of [Witness.get_previous_testimony]: [i] is the index that
    [enumerate] gives and [summary] the string built so far; numbers are
    printed in decimal. *)
Fixpoint summary_from (i : nat) (items : list (string * string)) (summary : string)
  : string :=
  match items with
  | [] => summary
  | (question, answer) :: items' =>
      summary_from (S i) items'
        (summary ++ "Question " ++ pretty (i + 1)%nat ++ ": " ++ question ++ newline
         ++ "Answer " ++ pretty (i + 1)%nat ++ ": " ++ answer ++ newline)
  end.

Definition get_previous_testimony (self : Witness.t) : string :=
  match Witness.testimony self with
  | [] => "No previous testimony."
  | items => summary_from 0 items ""
  end.

(** The [witness_data] dictionary as [BackstoryGenerator.generate] reads
    it. *)
Record WitnessData : Type := {
  wd_name : option string;
  wd_company : option string;
  wd_years : option Z;
  wd_role : option string;
  wd_achievement : option string;
  wd_suspicious_activity : option string;
  wd_responsibility : option string;
  wd_security_record : option string
}.

(** [BackstoryGenerator.generate]: the keys are read in the order in which
    they occur in the text. *)
Definition generate (case_type : string) (witness_data : WitnessData) : result string :=
  let? n := index "name" (wd_name witness_data) in
  let? c := index "company" (wd_company witness_data) in
  let? y := index "years" (wd_years witness_data) in
  let? r := index "role" (wd_role witness_data) in
  let? a := index "achievement" (wd_achievement witness_data) in
  let? rs := index "responsibility" (wd_responsibility witness_data) in
  let? sa := index "suspicious_activity" (wd_suspicious_activity witness_data) in
  let? sr := index "security_record" (wd_security_record witness_data) in
  Ok (n ++ " has been with " ++ c ++ " for " ++ pretty y ++ " years as a " ++ r ++ ". "
      ++ "During their tenure, they " ++ a ++ ". "
      ++ "Their responsibilities included " ++ rs ++ ". "
      ++ "When questioned about suspicious activities, " ++ sa ++ ". "
      ++ "Their security record shows " ++ sr ++ ".").

(** The [witness_data] that [CaseFactory.generate_case] builds, given what
    [random] chose. *)
Definition case_witness_data (years : Z)
  (role achievement suspicious_activity responsibility security_record : string)
  : WitnessData :=
  {| wd_name := Some ""; wd_company := Some "TechCorp"; wd_years := Some years;
     wd_role := Some role; wd_achievement := Some achievement;
     wd_suspicious_activity := Some suspicious_activity;
     wd_responsibility := Some responsibility;
     wd_security_record := Some security_record |}.

(** * Properties *)

Lemma Qltb_lt (x y : Q) : Qltb x y = true <-> x < y.
Proof.
  unfold Qltb. rewrite negb_true_iff, <- not_true_iff_false, Qle_bool_iff.
  split; [apply Qnot_le_lt | apply Qlt_not_le].
Qed.

Lemma Qltb_ge (x y : Q) : Qltb x y = false <-> y <= x.
Proof.
  unfold Qltb. rewrite negb_false_iff. apply Qle_bool_iff.
Qed.

Lemma fold_left_Qplus_sum (l : list Q) (a : Q) :
  fold_left Qplus l a == a + Qsum l.
Proof.
  revert a. induction l as [|x l IH]; intros a; simpl.
  - ring.
  - rewrite IH. ring.
Qed.

Lemma total_sentiment_sum (jury : Jury) :
  total_sentiment jury == Qsum (map sentiment (jurors jury)).
Proof.
  unfold total_sentiment. rewrite fold_left_Qplus_sum. ring.
Qed.

(** C1: [get_verdict] answers "Guilty" exactly when the sum of the jurors'
    sentiments is strictly positive and "Not Guilty" otherwise; a sum of
    exactly 0 gives "Not Guilty". *)
Theorem get_verdict_guilty_iff_positive_sum (jury : Jury) :
  (get_verdict jury = "Guilty" <-> 0 < Qsum (map sentiment (jurors jury))) /\
  (get_verdict jury = "Not Guilty" <-> ~ 0 < Qsum (map sentiment (jurors jury))) /\
  (Qsum (map sentiment (jurors jury)) == 0 -> get_verdict jury = "Not Guilty").
Proof.
  unfold get_verdict. rewrite <- total_sentiment_sum.
  destruct (Qltb 0 (total_sentiment jury)) eqn:E.
  - apply Qltb_lt in E. repeat split; try done.
    intros H0. rewrite H0 in E. by apply Qlt_irrefl in E.
  - apply Qltb_ge in E. repeat split; try done.
    + intros H. by apply Qlt_not_le in H.
    + intros _ H. by apply Qlt_not_le in H.
Qed.

(** *** The multiplier tables *)

Lemma personality_lookup_DEFAULT :
  personality_multipliers !! "DEFAULT"
  = Some ({[ "Digital" := 1.0; "Physical" := 1.0; "Testimonial" := 1.0 ]} : gmap string Q).
Proof. reflexivity. Qed.

Lemma bias_lookup_DEFAULT :
  bias_modifiers !! "DEFAULT"
  = Some ({[ "Digital" := 1.0; "Physical" := 1.0; "Testimonial" := 1.0 ]} : gmap string Q).
Proof. reflexivity. Qed.

Lemma personality_default_row :
  dict_index personality_multipliers "DEFAULT"
  = Ok ({[ "Digital" := 1.0; "Physical" := 1.0; "Testimonial" := 1.0 ]} : gmap string Q).
Proof. unfold dict_index. by rewrite personality_lookup_DEFAULT. Qed.

Lemma bias_default_row :
  dict_index bias_modifiers "DEFAULT"
  = Ok ({[ "Digital" := 1.0; "Physical" := 1.0; "Testimonial" := 1.0 ]} : gmap string Q).
Proof. unfold dict_index. by rewrite bias_lookup_DEFAULT. Qed.

Lemma default_row_known (kind : string) :
  kind ∈ known_kinds ->
  ({[ "Digital" := 1.0; "Physical" := 1.0; "Testimonial" := 1.0 ]} : gmap string Q) !! kind
  = Some 1.0.
Proof.
  unfold known_kinds. rewrite !elem_of_cons, elem_of_nil.
  intros [-> | [-> | [-> | []]]]; reflexivity.
Qed.

Lemma default_row_unknown (kind : string) :
  kind ∉ known_kinds ->
  ({[ "Digital" := 1.0; "Physical" := 1.0; "Testimonial" := 1.0 ]} : gmap string Q) !! kind
  = None.
Proof.
  unfold known_kinds. rewrite !not_elem_of_cons. intros (H1 & H2 & H3 & _).
  by rewrite !lookup_insert_ne, lookup_singleton_ne.
Qed.

(** Every row of both tables has entries for the known kinds only. *)
Lemma personality_row_unknown (p kind : string) (row : gmap string Q) :
  personality_multipliers !! p = Some row -> kind ∉ known_kinds -> row !! kind = None.
Proof.
  unfold known_kinds. rewrite !not_elem_of_cons. intros Hrow (H1 & H2 & H3 & _).
  unfold personality_multipliers in Hrow.
  repeat (apply lookup_insert_Some in Hrow as [[_ <-] | [_ Hrow]];
          [by rewrite !lookup_insert_ne, lookup_singleton_ne |]).
  apply lookup_singleton_Some in Hrow as [_ <-].
  by rewrite !lookup_insert_ne, lookup_singleton_ne.
Qed.

Lemma bias_row_unknown (b kind : string) (row : gmap string Q) :
  bias_modifiers !! b = Some row -> kind ∉ known_kinds -> row !! kind = None.
Proof.
  unfold known_kinds. rewrite !not_elem_of_cons. intros Hrow (H1 & H2 & H3 & _).
  unfold bias_modifiers in Hrow.
  repeat (apply lookup_insert_Some in Hrow as [[_ <-] | [_ Hrow]];
          [by rewrite !lookup_insert_ne, lookup_singleton_ne |]).
  apply lookup_singleton_Some in Hrow as [_ <-].
  by rewrite !lookup_insert_ne, lookup_singleton_ne.
Qed.

(** On the tables of the program, the lookup with fallback of the
    specification is what the two chained [.get] calls compute. *)
Lemma dict_get_lookup_with_default (table : gmap string (gmap string Q))
  (key kind : string) (dflt : Q) :
  table !! "DEFAULT" ≫= (.!! kind) = Some dflt ->
  lookup_with_default table key kind
  = Some (dict_get (dict_get table key ∅) kind dflt).
Proof.
  intros Hd. unfold lookup_with_default, dict_get.
  destruct (table !! key) as [row|]; simpl.
  - destruct (row !! kind); simpl; [done | by rewrite Hd].
  - by rewrite Hd, lookup_empty.
Qed.

(** What [calculate_impact] does, by cases. *)
Lemma calculate_impact_known (e : Evidence) (j : Juror) (b : Q) :
  impact_metric (metadata e) = Some b ->
  type e ∈ known_kinds ->
  calculate_impact e j
  = Ok (b * dict_get (dict_get personality_multipliers (personality j) ∅) (type e) 1.0
          * dict_get (dict_get bias_modifiers (bias j) ∅) (type e) 1.0).
Proof.
  intros Hb Hk. unfold calculate_impact. rewrite Hb. simpl.
  rewrite personality_default_row, bias_default_row. simpl.
  unfold dict_index at 1 2. by rewrite !default_row_known.
Qed.

Lemma calculate_impact_unknown (e : Evidence) (j : Juror) (b : Q) :
  impact_metric (metadata e) = Some b ->
  type e ∉ known_kinds ->
  calculate_impact e j = KeyError (type e).
Proof.
  intros Hb Hk. unfold calculate_impact. rewrite Hb. simpl.
  rewrite personality_default_row. simpl.
  unfold dict_index at 1. by rewrite default_row_unknown.
Qed.

Lemma calculate_impact_no_metric (e : Evidence) (j : Juror) :
  impact_metric (metadata e) = None ->
  calculate_impact e j = KeyError "impact_metric".
Proof. intros Hb. unfold calculate_impact. by rewrite Hb. Qed.

(** C4: [calculate_impact] returns the product of the base impact, the
    personality multiplier and the bias modifier, both looked up with
    fallback to the DEFAULT row; its result is a function of the evidence's
    kind and base impact and of the juror's personality and bias alone. *)
Theorem calculate_impact_is_product :
  (forall (e : Evidence) (j : Juror) (b pm bm : Q),
     impact_metric (metadata e) = Some b ->
     lookup_with_default personality_multipliers (personality j) (type e) = Some pm ->
     lookup_with_default bias_modifiers (bias j) (type e) = Some bm ->
     calculate_impact e j = Ok (b * pm * bm)) /\
  (forall (e1 e2 : Evidence) (j1 j2 : Juror),
     type e1 = type e2 ->
     impact_metric (metadata e1) = impact_metric (metadata e2) ->
     personality j1 = personality j2 ->
     bias j1 = bias j2 ->
     calculate_impact e1 j1 = calculate_impact e2 j2).
Proof.
  split.
  - intros e j b pm bm Hb Hpm Hbm.
    destruct (decide (type e ∈ known_kinds)) as [Hk | Hk].
    + rewrite (calculate_impact_known e j b Hb Hk).
      rewrite (dict_get_lookup_with_default _ _ _ 1.0) in Hpm
        by (rewrite personality_lookup_DEFAULT; by apply default_row_known).
      rewrite (dict_get_lookup_with_default _ _ _ 1.0) in Hbm
        by (rewrite bias_lookup_DEFAULT; by apply default_row_known).
      by simplify_eq.
    + exfalso. unfold lookup_with_default in Hpm.
      destruct (personality_multipliers !! personality j) as [row|] eqn:Hrow.
      * rewrite (personality_row_unknown _ _ _ Hrow Hk) in Hpm.
        rewrite personality_lookup_DEFAULT in Hpm. simpl in Hpm.
        by rewrite default_row_unknown in Hpm.
      * rewrite personality_lookup_DEFAULT in Hpm. simpl in Hpm.
        by rewrite default_row_unknown in Hpm.
  - intros e1 e2 j1 j2 Ht Hm Hp Hb. unfold calculate_impact.
    by rewrite Ht, Hm, Hp, Hb.
Qed.

(** C5, as the code has it: [calculate_impact] returns a value for every
    evidence that carries a base impact and whose kind is Digital, Physical
    or Testimonial, whatever the juror's personality and bias; for any other
    kind it raises [KeyError] on the DEFAULT row. *)
Theorem calculate_impact_total_on_known_kinds (e : Evidence) (j : Juror) (b : Q) :
  impact_metric (metadata e) = Some b ->
  (type e ∈ known_kinds -> exists v, calculate_impact e j = Ok v) /\
  (type e ∉ known_kinds -> calculate_impact e j = KeyError (type e)).
Proof.
  intros Hb. split; intros Hk.
  - eexists. by apply calculate_impact_known.
  - by apply (calculate_impact_unknown e j b).
Qed.

(** *** Jurors: what the methods leave alone *)

Lemma set_sentiment_id (j : Juror) : set_sentiment (sentiment j) j = j.
Proof. by destruct j. Qed.

Lemma set_sentiment_twice (v w : Q) (j : Juror) :
  set_sentiment v (set_sentiment w j) = set_sentiment v j.
Proof. reflexivity. Qed.

Lemma only_sentiment_refl (j : Juror) : only_sentiment j j.
Proof. unfold only_sentiment. by rewrite set_sentiment_id. Qed.

Lemma only_sentiment_set (v : Q) (j : Juror) : only_sentiment j (set_sentiment v j).
Proof. reflexivity. Qed.

Lemma only_sentiment_trans (j1 j2 j3 : Juror) :
  only_sentiment j1 j2 -> only_sentiment j2 j3 -> only_sentiment j1 j3.
Proof. unfold only_sentiment. intros H12 H23. rewrite H23, H12. reflexivity. Qed.

Lemma only_sentiment_fields (j j' : Juror) :
  only_sentiment j j' ->
  id j' = id j /\ personality j' = personality j /\ bias j' = bias j /\
  memory j' = memory j /\ persuasiveness j' = persuasiveness j.
Proof. intros ->. by repeat split. Qed.

(** *** evaluate_evidence *)

Lemma has_condition_spec (tag : string) (ctx : CaseContext) :
  has_condition tag ctx = bool_decide (contains_condition ctx tag).
Proof. reflexivity. Qed.

Lemma evaluate_evidence_raises (e : Evidence) (ctx : CaseContext) (j : Juror) (k : string) :
  calculate_impact e j = KeyError k ->
  evaluate_evidence e ctx j = (j, KeyError k).
Proof.
  intros H. unfold evaluate_evidence, bind, get_state, lift. by rewrite H.
Qed.

Lemma evaluate_evidence_returns (e : Evidence) (ctx : CaseContext) (j : Juror) (i : Q) :
  calculate_impact e j = Ok i ->
  exists v, evaluate_evidence e ctx j = (set_sentiment v j, Ok tt).
Proof.
  intros H. unfold evaluate_evidence, bind, get_state, lift, add_sentiment, modify.
  rewrite H. eexists. reflexivity.
Qed.

(** C6: [evaluate_evidence] scales the computed impact by 1.1 or 0.9
    according to the special conditions of the case and the juror's bias,
    both factors when both conditions are present, and adds the result to
    the sentiment, which is not clamped; nothing else of the juror changes. *)
Theorem evaluate_evidence_applies_nudges (e : Evidence) (ctx : CaseContext)
  (j : Juror) (i : Q) :
  calculate_impact e j = Ok i ->
  exists v, evaluate_evidence e ctx j = (set_sentiment v j, Ok tt) /\
            v == sentiment j + i * context_factor ctx (bias j).
Proof.
  intros H. unfold evaluate_evidence, bind, get_state, lift, add_sentiment, modify.
  rewrite H. eexists. split; [reflexivity |].
  unfold context_factor, media_nudge, political_nudge.
  rewrite !has_condition_spec.
  generalize (bias j) (sentiment j). intros b s.
  destruct (String.eqb_spec b "Favor Evidence-Based Arguments") as [H1 | H1];
  destruct (String.eqb_spec b "Empathetic") as [H2 | H2];
  destruct (String.eqb_spec b "Skeptical") as [H3 | H3];
  try (exfalso; congruence);
  repeat case_bool_decide; repeat case_decide; try done; ring.
Qed.

Lemma calculate_impact_outcome (e : Evidence) (j : Juror) :
  match evidence_error e with
  | Some k => calculate_impact e j = KeyError k
  | None => exists v, calculate_impact e j = Ok v
  end.
Proof.
  unfold evidence_error.
  destruct (impact_metric (metadata e)) as [b|] eqn:Hb.
  - case_decide.
    + eexists. by apply calculate_impact_known.
    + by apply (calculate_impact_unknown e j b).
  - by apply calculate_impact_no_metric.
Qed.

Lemma evaluate_evidence_outcome (e : Evidence) (ctx : CaseContext) (j : Juror) :
  only_sentiment j (fst (evaluate_evidence e ctx j)) /\
  snd (evaluate_evidence e ctx j) = outcome_of (evidence_error e).
Proof.
  pose proof (calculate_impact_outcome e j) as H.
  destruct (evidence_error e) as [k|].
  - rewrite (evaluate_evidence_raises _ _ _ _ H). split; [apply only_sentiment_refl | done].
  - destruct H as [v Hv].
    destruct (evaluate_evidence_returns e ctx j v Hv) as (w & ->).
    split; [apply only_sentiment_set | done].
Qed.

(** *** The replay loop of deliberate *)

Lemma for_each_app {S A} (l1 l2 : list A) (body : A -> M S unit) (s : S) :
  for_each (l1 ++ l2) body s = (for_each l1 body ;;; for_each l2 body) s.
Proof.
  revert s. induction l1 as [|x l1 IH]; intros s; simpl.
  - reflexivity.
  - unfold bind in *. destruct (body x s) as [s' [[]|k|]]; [| reflexivity..].
    apply IH.
Qed.

Lemma replay_event_outcome (event : TrialEvent) (j : Juror) :
  only_sentiment j (fst (replay_event event j)) /\
  snd (replay_event event j) = outcome_of (replay_error [event]).
Proof.
  destruct event as [e ctx i | i | i]; simpl.
  - destruct (evaluate_evidence_outcome e ctx j) as [H1 H2].
    split; [done |]. rewrite H2. by destruct (evidence_error e).
  - split; [apply only_sentiment_set | done].
  - split; [apply only_sentiment_refl | done].
Qed.

Lemma replay_outcome (events : list TrialEvent) (j : Juror) :
  only_sentiment j (fst (for_each events replay_event j)) /\
  snd (for_each events replay_event j) = outcome_of (replay_error events).
Proof.
  revert j. induction events as [|event events IH]; intros j; simpl.
  - split; [apply only_sentiment_refl | done].
  - unfold bind.
    destruct (replay_event_outcome event j) as [H1 H2].
    destruct (replay_event event j) as [j1 r]. simpl in H1, H2.
    destruct r as [[]|k|].
    + destruct (IH j1) as [H3 H4]. split.
      * by eapply only_sentiment_trans.
      * rewrite H4. destruct event as [e ctx i | i | i]; simpl in *; try done.
        by destruct (evidence_error e).
    + split; [done |]. simpl. destruct event as [e ctx i | i | i]; simpl in *; try done.
      by destruct (evidence_error e).
    + exfalso. destruct event as [e ctx i | i | i]; simpl in *; try done.
      by destruct (evidence_error e).
Qed.

(** Opening-statement events are skipped by the replay. *)
Lemma replay_skips_opening_statement (events1 events2 : list TrialEvent)
  (impact : Q) (j : Juror) :
  for_each (events1 ++ OpeningStatement impact :: events2) replay_event j
  = for_each (events1 ++ events2) replay_event j.
Proof.
  rewrite !for_each_app. unfold bind.
  destruct (for_each events1 replay_event j) as [j1 [[]|k|]]; reflexivity.
Qed.

(** *** The peer-influence loop of deliberate *)

Lemma influence_set_sentiment (v : Q) (self other : Juror) :
  influence (set_sentiment v self) other = influence self other.
Proof. reflexivity. Qed.

Lemma peers_set_sentiment (v : Q) (self : Juror) (all : list Juror) :
  peers (set_sentiment v self) all = peers self all.
Proof. reflexivity. Qed.

Lemma peer_pass (all : list Juror) (self : Juror) :
  for_each all peer_step self
  = (set_sentiment
       (fold_left Qplus (map (influence self) (peers self all)) (sentiment self)) self,
     Ok tt).
Proof.
  revert self. induction all as [|other all IH]; intros self; simpl.
  - by rewrite set_sentiment_id.
  - unfold bind, peer_step at 1, get_state, bind. unfold peers. rewrite filter_cons.
    destruct (Z.eqb_spec (id self) (id other)) as [Heq | Hne]; simpl.
    + rewrite decide_False by (intros H; by apply H).
      rewrite IH. reflexivity.
    + rewrite decide_True by done. unfold add_sentiment, modify.
      rewrite IH. reflexivity.
Qed.

Lemma deliberate_unfold (events : list TrialEvent) (all : list Juror) (self : Juror) :
  deliberate events all self
  = match for_each events replay_event self with
    | (s1, Ok _) =>
        (set_sentiment
           (clamp (fold_left Qplus (map (influence self) (peers self all)) (sentiment s1)))
           self,
         Ok tt)
    | (s1, KeyError k) => (s1, KeyError k)
    | (s1, TypeError) => (s1, TypeError)
    end.
Proof.
  unfold deliberate, bind.
  destruct (replay_outcome events self) as [H1 _].
  destruct (for_each events replay_event self) as [s1 [[]|k|]]; [| reflexivity..].
  simpl in H1. rewrite peer_pass. unfold modify. simpl.
  rewrite H1. reflexivity.
Qed.

Lemma evidence_error_None (e : Evidence) :
  evidence_error e = None <-> evidence_ok e.
Proof.
  unfold evidence_error, evidence_ok.
  destruct (impact_metric (metadata e)) as [b|].
  - case_decide; split.
    + intros _. by split.
    + done.
    + done.
    + by intros [_ ?].
  - split; [done | intros [[? ?] _]; done].
Qed.

Lemma replay_error_None (events : list TrialEvent) :
  replay_error events = None <-> Forall event_ok events.
Proof.
  induction events as [|event events IH]; simpl.
  - split; [constructor | done].
  - rewrite Forall_cons. destruct event as [e ctx i | i | i]; simpl.
    + rewrite <- evidence_error_None, <- IH.
      destruct (evidence_error e); split; try done; intros [? ?]; done.
    + rewrite <- IH. split; [done | by intros [_ ?]].
    + rewrite <- IH. split; [done | by intros [_ ?]].
Qed.

Lemma deliberate_outcome (events : list TrialEvent) (all : list Juror) (self : Juror) :
  only_sentiment self (fst (deliberate events all self)) /\
  snd (deliberate events all self) = outcome_of (replay_error events).
Proof.
  rewrite deliberate_unfold.
  destruct (replay_outcome events self) as [H1 H2].
  destruct (for_each events replay_event self) as [s1 [[]|k|]]; simpl in *.
  - split; [apply only_sentiment_set | done].
  - done.
  - done.
Qed.

(** *** The clamp *)


(** C2, on the code: an opening-statement event (the dictionary that
    [Game.opening_statements] appends, here with impact 2) is replayed
    without any effect on the sentiment, where a witness-testimony event
    with the same impact adds 2; in general [deliberate] does the same with
    and without the opening-statement events of the log. *)
Theorem deliberate_ignores_opening_statement :
  trial_events (fst (opening_statements 2 jury1)) = [OpeningStatement 2] /\
  deliberate [OpeningStatement 2] [juror1] juror1 = (juror1, Ok tt) /\
  deliberate [WitnessTestimony 2] [juror1] juror1 = (set_sentiment 2 juror1, Ok tt) /\
  (forall (events1 events2 : list TrialEvent) (impact : Q) (all : list Juror) (j : Juror),
     deliberate (events1 ++ OpeningStatement impact :: events2) all j
     = deliberate (events1 ++ events2) all j).
Proof.
  split; [reflexivity | split; [reflexivity | split; [reflexivity |]]].
  intros events1 events2 impact all j. rewrite !deliberate_unfold.
  by rewrite replay_skips_opening_statement.
Qed.


(** C7: during one call of [deliberate] the term
    [(other.persuasiveness - self.persuasiveness) * 0.5] is added to the
    sentiment once for each juror of the list whose id is not that of
    [self], in list order, between the replay and the clamp; and the term
    that A receives from B is the negation of the one B receives from A. *)
Theorem peer_influence_once_per_peer :
  (forall (events : list TrialEvent) (all : list Juror) (self s1 : Juror),
     for_each events replay_event self = (s1, Ok tt) ->
     deliberate events all self
     = (set_sentiment
          (clamp (fold_left Qplus
                    (map (fun other => (persuasiveness other - persuasiveness self) * 0.5)
                         (peers self all))
                    (sentiment s1)))
          self,
        Ok tt)) /\
  (forall (A B : Juror),
     (persuasiveness B - persuasiveness A) * 0.5
     == - ((persuasiveness A - persuasiveness B) * 0.5)) /\
  (forall (A B : Juror), influence A B == - influence B A).
Proof.
  split; [| split].
  - intros events all self s1 H. rewrite deliberate_unfold, H. reflexivity.
  - intros A B. ring.
  - intros A B. unfold influence. ring.
Qed.

(** *** Bounds on the peer influence *)

Lemma influence_bound (self other : Juror) :
  persuasiveness_in_range self -> persuasiveness_in_range other ->
  Qabs (influence self other) <= 0.5.
Proof.
  unfold persuasiveness_in_range, influence. intros [Hs1 Hs2] [Ho1 Ho2].
  apply Qabs_Qle_condition. split.
  - apply Qle_trans with ((0.5 - 1.5) * 0.5); [done |].
    apply Qmult_le_compat_r; [| done].
    apply Qplus_le_compat; [done |]. by apply Qopp_le_compat.
  - apply Qle_trans with ((1.5 - 0.5) * 0.5); [| done].
    apply Qmult_le_compat_r; [| done].
    apply Qplus_le_compat; [done |]. by apply Qopp_le_compat.
Qed.

Lemma Qsum_bound (c : Q) (l : list Q) :
  Forall (fun x => Qabs x <= c) l ->
  Qabs (Qsum l) <= c * inject_Z (Z.of_nat (length l)).
Proof.
  induction 1 as [|x l Hx Hl IH]; simpl length; simpl Qsum.
  - rewrite Qmult_0_r. done.
  - rewrite Nat2Z.inj_succ, <- Z.add_1_r, inject_Z_plus.
    eapply Qle_trans; [apply Qabs_triangle |].
    setoid_replace (c * (inject_Z (Z.of_nat (length l)) + inject_Z 1))
      with (c + c * inject_Z (Z.of_nat (length l))) using relation Qeq by ring.
    by apply Qplus_le_compat.
Qed.

(** C10: with every persuasiveness in [[0.5, 1.5]], each influence term has
    absolute value at most 0.5, and the peer-influence loop of one
    [deliberate] call moves the sentiment by at most 0.5 times the number of
    other jurors. *)
Theorem peer_influence_bounded (all : list Juror) (self : Juror) :
  persuasiveness_in_range self ->
  Forall persuasiveness_in_range all ->
  Forall (fun other =>
            Qabs ((persuasiveness other - persuasiveness self) * 0.5) <= 0.5) all /\
  Qabs (sentiment (fst (for_each all peer_step self)) - sentiment self)
  <= 0.5 * inject_Z (Z.of_nat (length (peers self all))).
Proof.
  intros Hself Hall. split.
  - eapply Forall_impl; [exact Hall |]. intros other Ho.
    by apply (influence_bound self other).
  - rewrite peer_pass. cbn [fst sentiment set_sentiment].
    assert (fold_left Qplus (map (influence self) (peers self all)) (sentiment self)
            - sentiment self
            == Qsum (map (influence self) (peers self all))) as ->
      by (rewrite fold_left_Qplus_sum; ring).
    rewrite <- (length_map (influence self)).
    apply Qsum_bound. rewrite Forall_map.
    rewrite Forall_forall in Hall. apply Forall_forall.
    intros other [_ Hin]%list_elem_of_filter.
    apply influence_bound; [done | by apply Hall].
Qed.

(** *** The loop of deliberate_phase *)

Lemma peers_influence_ext (self : Juror) (all1 all2 : list Juror) :
  roster all1 = roster all2 ->
  map (influence self) (peers self all1) = map (influence self) (peers self all2).
Proof.
  revert all2. induction all1 as [|o1 all1 IH]; intros [|o2 all2] Hr; try done.
  injection Hr as Hid Hp Hr. unfold peers. rewrite !filter_cons.
  rewrite <- Hid. case_decide; simpl.
  - unfold influence at 1 3. rewrite Hp. f_equal. by apply IH.
  - by apply IH.
Qed.

Lemma deliberate_ext (events : list TrialEvent) (all1 all2 : list Juror) (j : Juror) :
  roster all1 = roster all2 ->
  deliberate events all1 j = deliberate events all2 j.
Proof.
  intros Hr. rewrite !deliberate_unfold.
  by rewrite (peers_influence_ext j all1 all2 Hr).
Qed.

Lemma roster_insert (s : list Juror) (i : nat) (j j' : Juror) :
  s !! i = Some j -> only_sentiment j j' -> roster (<[i := j']> s) = roster s.
Proof.
  intros Hi Hj. unfold roster. rewrite list_fmap_insert.
  apply list_insert_id. rewrite list_lookup_fmap, Hi. simpl.
  by destruct (only_sentiment_fields _ _ Hj) as (-> & _ & _ & _ & ->).
Qed.

Lemma deliberate_phase_as_ordered (jury : Jury) :
  deliberate_phase jury = deliberate_phase_in (seq 0 (length (jurors jury))) jury.
Proof. reflexivity. Qed.

Lemma deliberate_juror_step (events : list TrialEvent) (s : list Juror) (i : nat) :
  deliberate_juror i {| jurors := s; trial_events := events |}
  = match s !! i with
    | Some j =>
        ({| jurors := <[i := fst (deliberate events s j)]> s; trial_events := events |},
         snd (deliberate events s j))
    | None => ({| jurors := s; trial_events := events |}, Ok tt)
    end.
Proof.
  unfold deliberate_juror, bind, get_state, on_juror. simpl.
  destruct (s !! i) as [j|]; [| reflexivity].
  by destruct (deliberate events s j) as [j' [[]|k|]].
Qed.

(** Closes the goals on the position [k] read after a visit of [i :: rest]:
    [k] is [i], or was visited later, or was not visited. *)
Ltac visited_cases k i rest Hj :=
  destruct (decide (k = i)) as [-> | ?];
  [ rewrite decide_False by done; rewrite decide_True by apply list_elem_of_here;
    rewrite ?list_lookup_insert_eq by (by eapply lookup_lt_Some);
    rewrite Hj
  | rewrite ?list_lookup_insert_ne by done;
    destruct (decide (k ∈ rest));
    [ rewrite decide_True by (by apply list_elem_of_further); done
    | rewrite decide_False; [done | rewrite elem_of_cons; tauto] ] ].

Section DeliberatePhase.

(** The log and the juror list at the start of [deliberate_phase]. *)
Variable events : list TrialEvent.
Variable s0 : list Juror.

(** When the replay raises nothing, visiting distinct positions in any order
    leaves at each visited position the juror's own deliberation on the
    list as it was at the start. *)
Lemma deliberate_phase_in_ok (order : list nat) (s : list Juror) :
  replay_error events = None ->
  NoDup order ->
  roster s = roster s0 ->
  exists s',
    deliberate_phase_in order {| jurors := s; trial_events := events |}
    = ({| jurors := s'; trial_events := events |}, Ok tt) /\
    forall k, s' !! k = if decide (k ∈ order)
                        then (fun j => fst (deliberate events s0 j)) <$> s !! k
                        else s !! k.
Proof.
  intros Hok Hnd. revert s. induction Hnd as [|i rest Hi Hnd IH]; intros s Hr.
  - exists s. split; [reflexivity |]. intros k.
    rewrite decide_False; [done | apply not_elem_of_nil].
  - unfold deliberate_phase_in. simpl. unfold bind at 1.
    rewrite deliberate_juror_step.
    destruct (s !! i) as [j|] eqn:Hj.
    + destruct (deliberate_outcome events s j) as [Hs Ho].
      rewrite Ho, Hok. simpl.
      destruct (IH (<[i := fst (deliberate events s j)]> s)) as (s' & Hrun & Hs').
      { by rewrite (roster_insert _ _ j). }
      exists s'. split; [exact Hrun |]. intros k. rewrite Hs'.
      visited_cases k i rest Hj.
      simpl. by rewrite (deliberate_ext events s s0 j Hr).
    + destruct (IH s Hr) as (s' & Hrun & Hs').
      exists s'. split; [exact Hrun |]. intros k. rewrite Hs'.
      visited_cases k i rest Hj. done.
Qed.

Lemma deliberate_phase_in_permutation_ok (order : list nat) :
  replay_error events = None ->
  order ≡ₚ seq 0 (length s0) ->
  deliberate_phase_in order {| jurors := s0; trial_events := events |}
  = ({| jurors := deliberated events s0; trial_events := events |}, Ok tt).
Proof.
  intros Hok Hperm.
  destruct (deliberate_phase_in_ok order s0 Hok) as (s' & -> & Hs'); [| done |].
  { rewrite Hperm. apply NoDup_seq. }
  do 2 f_equal. apply list_eq. intros k. rewrite Hs'.
  unfold deliberated. rewrite list_lookup_fmap.
  case_decide as Hin; [done |].
  rewrite Hperm, elem_of_seq in Hin.
  rewrite (lookup_ge_None_2 s0 k) by lia. done.
Qed.

(** When the replay raises, the first juror visited raises, whoever it is. *)
Lemma deliberate_phase_in_raises (order : list nat) (key : string) :
  replay_error events = Some key ->
  order ≡ₚ seq 0 (length s0) ->
  snd (deliberate_phase_in order {| jurors := s0; trial_events := events |})
  = match s0 with [] => Ok tt | _ => KeyError key end.
Proof.
  intros Herr Hperm. destruct order as [|i rest].
  - apply Permutation_nil in Hperm.
    destruct s0; [reflexivity | discriminate].
  - assert (i < length s0)%nat as Hlt.
    { assert (i ∈ seq 0 (length s0)) as Hin by (rewrite <- Hperm; apply list_elem_of_here).
      apply elem_of_seq in Hin. lia. }
    destruct (lookup_lt_is_Some_2 _ _ Hlt) as [j Hj].
    unfold deliberate_phase_in. simpl for_each. unfold bind at 1.
    rewrite deliberate_juror_step, Hj.
    destruct (deliberate_outcome events s0 j) as [_ Ho].
    rewrite Ho, Herr. simpl. destruct s0; [simpl in Hlt; lia | reflexivity].
Qed.

End DeliberatePhase.

(** C8, as the code has it: on a jury state from which [deliberate_phase]
    returns, the jurors may be visited in any order.  The outcome of
    [deliberate_phase] (that it returns, or the key it raises on) is the
    same for every permutation of the positions, and when it returns, the
    jury it leaves is the same too: every juror holds the result of its own
    [deliberate] call on the log and on the juror list as they were at the
    start, hence the verdict is the same.  It returns whenever every
    evidence event of the log carries a base impact and one of the three
    kinds. *)
Theorem deliberate_phase_order_independent (jury : Jury) (order : list nat) :
  Permutation order (seq 0 (length (jurors jury))) ->
  snd (deliberate_phase_in order jury) = snd (deliberate_phase jury) /\
  (snd (deliberate_phase jury) = Ok tt ->
   deliberate_phase_in order jury = deliberate_phase jury /\
   jurors (fst (deliberate_phase_in order jury))
   = deliberated (trial_events jury) (jurors jury) /\
   get_verdict (fst (deliberate_phase_in order jury))
   = get_verdict (fst (deliberate_phase jury))) /\
  (Forall event_ok (trial_events jury) -> snd (deliberate_phase jury) = Ok tt).
Proof.
  intros Hperm.
  assert (Forall event_ok (trial_events jury) -> snd (deliberate_phase jury) = Ok tt)
    as Hret.
  { intros Hok. apply replay_error_None in Hok. rewrite deliberate_phase_as_ordered.
    destruct jury as [s0 events]. simpl in *.
    by rewrite (deliberate_phase_in_permutation_ok events s0 _ Hok (Permutation_refl _)). }
  apply and_assoc. split; [| exact Hret]. clear Hret.
  rewrite deliberate_phase_as_ordered.
  destruct jury as [s0 events]. simpl in *.
  destruct (replay_error events) as [key|] eqn:Herr.
  - rewrite (deliberate_phase_in_raises events s0 order key Herr Hperm).
    rewrite (deliberate_phase_in_raises events s0 _ key Herr (Permutation_refl _)).
    split; [reflexivity |]. destruct s0 as [|j0 s0']; [| done].
    symmetry in Hperm. apply Permutation_nil in Hperm. by subst order.
  - rewrite (deliberate_phase_in_permutation_ok events s0 order Herr Hperm).
    rewrite (deliberate_phase_in_permutation_ok events s0 _ Herr (Permutation_refl _)).
    done.
Qed.

(** *** The writes of the game flow *)

Lemma for_each_on_juror_modify (f : Juror -> Juror) (events : list TrialEvent)
  (order : list nat) (s : list Juror) :
  NoDup order ->
  exists s',
    for_each order (fun i => on_juror i (modify f)) {| jurors := s; trial_events := events |}
    = ({| jurors := s'; trial_events := events |}, Ok tt) /\
    forall k, s' !! k = if decide (k ∈ order) then f <$> s !! k else s !! k.
Proof.
  intros Hnd. revert s. induction Hnd as [|i rest Hi Hnd IH]; intros s.
  - exists s. split; [reflexivity |]. intros k.
    rewrite decide_False; [done | apply not_elem_of_nil].
  - simpl. unfold bind at 1. unfold on_juror at 1, modify at 1. simpl.
    destruct (s !! i) as [j|] eqn:Hj; simpl.
    + destruct (IH (<[i := f j]> s)) as (s' & Hrun & Hs').
      exists s'. split; [exact Hrun |]. intros k. rewrite Hs'.
      visited_cases k i rest Hj. done.
    + destruct (IH s) as (s' & Hrun & Hs').
      exists s'. split; [exact Hrun |]. intros k. rewrite Hs'.
      visited_cases k i rest Hj. done.
Qed.

Lemma bump_jurors_spec (d : Q) (jury : Jury) :
  bump_jurors d jury = (bump d jury, Ok tt).
Proof.
  destruct jury as [s events]. unfold bump_jurors, for_each_juror, bind, get_state.
  simpl. unfold add_sentiment.
  destruct (for_each_on_juror_modify
              (fun self => set_sentiment (sentiment self + d) self)
              events (seq 0 (length s)) s (NoDup_seq _ _)) as (s' & -> & Hs').
  unfold bump, set_jurors. simpl. do 2 f_equal.
  apply list_eq. intros k. rewrite Hs', list_lookup_fmap.
  case_decide as Hin; [done |].
  rewrite elem_of_seq in Hin. rewrite (lookup_ge_None_2 s k) by lia. done.
Qed.

Lemma raise_objection_spec (objection_type question : string) (jury : Jury) :
  raise_objection objection_type question jury = (jury, TypeError).
Proof. reflexivity. Qed.

Lemma synergy_inner_loop (item : string * Evidence)
  (others : list (string * Evidence)) (jury : Jury) :
  for_each others
    (fun other_item =>
       if synergy_activated item other_item then bump_jurors 1 else ret tt) jury
  = (Nat.iter (length (List.filter (synergy_activated item) others)) (bump 1) jury,
     Ok tt).
Proof.
  revert jury. induction others as [|other others IH]; intros jury; [reflexivity |].
  simpl for_each. unfold bind. simpl List.filter.
  destruct (synergy_activated item other).
  - rewrite bump_jurors_spec, IH. simpl length. by rewrite Nat.iter_succ_r.
  - unfold ret. by rewrite IH.
Qed.

Lemma filter_pairs_with {A B} (p : A * B -> bool) (x : A) (l : list B) :
  List.filter p (map (pair x) l) = map (pair x) (List.filter (fun y => p (x, y)) l).
Proof.
  induction l as [|y l IH]; simpl; [done |].
  destruct (p (x, y)); simpl; by rewrite IH.
Qed.

Lemma check_synergy_loop (items others : list (string * Evidence)) (jury : Jury) :
  for_each items (fun item =>
    for_each others (fun other_item =>
      if synergy_activated item other_item then bump_jurors 1 else ret tt)) jury
  = (Nat.iter
       (length (List.filter (fun pair => synergy_activated (fst pair) (snd pair))
                            (list_prod items others)))
       (bump 1) jury,
     Ok tt).
Proof.
  revert jury. induction items as [|item items IH]; intros jury; [reflexivity |].
  simpl for_each. unfold bind. rewrite synergy_inner_loop, IH.
  simpl list_prod. rewrite List.filter_app, length_app, filter_pairs_with, length_map.
  simpl. rewrite Nat.add_comm, Nat.iter_add. reflexivity.
Qed.

Lemma check_synergy_spec (selected_evidence : list (string * Evidence)) (jury : Jury) :
  check_synergy selected_evidence jury
  = (Nat.iter (synergy_count selected_evidence) (bump 1) jury, Ok tt).
Proof. apply check_synergy_loop. Qed.

Lemma bump_iter_sentiments (n : nat) (jury : Jury) :
  Forall2 (fun j j' => only_sentiment j j' /\
                       sentiment j' == sentiment j + inject_Z (Z.of_nat n))
          (jurors jury) (jurors (Nat.iter n (bump 1) jury)) /\
  trial_events (Nat.iter n (bump 1) jury) = trial_events jury.
Proof.
  induction n as [|n [IH1 IH2]].
  - simpl. split; [| done]. apply Forall_Forall2_diag, Forall_forall.
    intros j _. split; [apply only_sentiment_refl |]. rewrite Qplus_0_r. done.
  - rewrite Nat.iter_succ. split; [| exact IH2].
    unfold bump at 1. simpl jurors. rewrite Forall2_fmap_r.
    eapply Forall2_impl; [exact IH1 |]. intros j j' [Ho Hs]. split.
    + eapply only_sentiment_trans; [exact Ho | apply only_sentiment_set].
    + simpl. rewrite Hs, Nat2Z.inj_succ, <- Z.add_1_r, inject_Z_plus. ring.
Qed.

Lemma examine_question_spec (selected_evidence : list (string * Evidence))
  (q : Question) (jury : Jury) :
  examine_question selected_evidence q jury
  = (log_event (WitnessTestimony (testimony_impact q))
       (Nat.iter (synergy_count selected_evidence) (bump 1) jury),
     if objected q then TypeError else Ok tt).
Proof.
  unfold examine_question, bind. rewrite check_synergy_spec.
  unfold append_event, modify. fold (log_event (WitnessTestimony (testimony_impact q))).
  unfold objected.
  destruct (player_objection q) as [o1|], (opposing_objection q) as [o2|]; reflexivity.
Qed.

Lemma on_juror_frame (i k : nat) (method : M Juror unit) (jury : Jury) :
  k ≠ i ->
  jurors (fst (on_juror i method jury)) !! k = jurors jury !! k /\
  trial_events (fst (on_juror i method jury)) = trial_events jury.
Proof.
  intros Hne. unfold on_juror. destruct (jurors jury !! i) as [j|]; [| done].
  destruct (method j) as [j' r]. simpl. split; [| done].
  by rewrite list_lookup_insert_ne.
Qed.

(** C9, as the code has it: besides the juror's own [evaluate_evidence] and
    [deliberate], which write the sentiment of the juror they are called on
    and of no other, one place of the game flow writes sentiments directly:
    each question of [examine_witnesses] adds 1 to every juror's sentiment
    once per ordered pair of selected evidence that activates a synergy, and
    this write changes the sentiment alone.  The handling of an objection
    ruling writes no sentiment: [judge_ruling] raises [TypeError] before the
    loops over the jurors are reached, in [raise_objection] and in the
    opposing side's branch of [examine_witnesses] alike.  Appending an
    opening-statement event writes no sentiment. *)
Theorem game_flow_writes_sentiment :
  (forall (i k : nat) (method : M Juror unit) (jury : Jury),
     k ≠ i -> jurors (fst (on_juror i method jury)) !! k = jurors jury !! k) /\
  (forall (objection_type question : string) (jury : Jury),
     raise_objection objection_type question jury = (jury, TypeError)) /\
  (forall (selected_evidence : list (string * Evidence)) (q : Question) (jury : Jury),
     examine_question selected_evidence q jury
     = (log_event (WitnessTestimony (testimony_impact q))
          (Nat.iter (synergy_count selected_evidence) (bump 1) jury),
        if objected q then TypeError else Ok tt)) /\
  (forall (n : nat) (jury : Jury),
     Forall2 (fun j j' => only_sentiment j j' /\
                          sentiment j' == sentiment j + inject_Z (Z.of_nat n))
             (jurors jury) (jurors (Nat.iter n (bump 1) jury))) /\
  (forall (impact : Q) (jury : Jury),
     jurors (fst (opening_statements impact jury)) = jurors jury).
Proof.
  repeat split.
  - intros i k method jury Hne. by apply on_juror_frame.
  - apply examine_question_spec.
  - intros n jury. apply bump_iter_sentiments.
Qed.

(** *** Concrete runs *)

(** C5, counterexample: the evidence of the repository's own test template
    has a base impact and the kind "Test"; [calculate_impact] raises
    [KeyError] on it. *)
Lemma calculate_impact_raises_on_test_kind :
  impact_metric (metadata test_evidence) = Some 1 /\
  calculate_impact test_evidence juror1 = KeyError "Test".
Proof. split; reflexivity. Qed.


(** C8, counterexample: two jurors at sentiment -1 and a log whose second
    event carries evidence of the kind "Test".  Whoever is visited first
    replays the first event and raises on the second; the other is not
    reached.  In list order the sentiments end at 1.7 and -1 and the verdict
    is "Guilty"; with the second juror visited first they end at -1 and
    0.28 and the verdict is "Not Guilty". *)
Lemma deliberate_phase_order_matters_on_raise :
  Permutation [1; 0]%nat (seq 0 (length (jurors tainted_jury))) /\
  snd (deliberate_phase tainted_jury) = KeyError "Test" /\
  snd (deliberate_phase_in [1; 0]%nat tainted_jury) = KeyError "Test" /\
  Forall2 Qeq (map sentiment (jurors (fst (deliberate_phase tainted_jury))))
              [1.7; -1] /\
  Forall2 Qeq (map sentiment (jurors (fst (deliberate_phase_in [1; 0]%nat tainted_jury))))
              [-1; 0.28] /\
  get_verdict (fst (deliberate_phase tainted_jury)) = "Guilty" /\
  get_verdict (fst (deliberate_phase_in [1; 0]%nat tainted_jury)) = "Not Guilty".
Proof.
  split; [apply perm_swap |]. split; [reflexivity |]. split; [reflexivity |].
  split; [repeat constructor; by vm_compute |].
  split; [repeat constructor; by vm_compute |].
  split; reflexivity.
Qed.

(** C9, counterexample: the examination of one witness (three questions, no
    objection) with two mutually synergetic pieces of evidence selected moves
    the juror's sentiment from 0 to 6, outside of the juror's own methods. *)
Lemma examine_witnesses_writes_sentiment :
  map sentiment (jurors jury1) = [0] /\
  map sentiment
    (jurors (fst (examine_witnesses selected_pair
                    [(quiet_question, quiet_question, quiet_question)] jury1)))
  = [6].
Proof. split; reflexivity. Qed.

(** C1 at a tie: sentiments 1 and -1 sum to 0 and the verdict is
    "Not Guilty". *)
Lemma get_verdict_tie_witness :
  Qsum (map sentiment (jurors split_jury)) == 0 /\
  get_verdict split_jury = "Not Guilty".
Proof.
  assert (Qsum (map sentiment (jurors split_jury)) == 0) as H by (by vm_compute).
  split; [exact H |].
  exact (proj2 (proj2 (get_verdict_guilty_iff_positive_sum split_jury)) H).
Defined.


(** C4 on digital evidence of base impact 2 before an analytical, skeptical
    juror. *)
Lemma calculate_impact_is_product_witness :
  impact_metric (metadata digital_evidence) = Some 2 /\
  lookup_with_default personality_multipliers (personality juror1) (type digital_evidence)
  = Some 1.5 /\
  lookup_with_default bias_modifiers (bias juror1) (type digital_evidence) = Some 0.9 /\
  calculate_impact digital_evidence juror1 = Ok (2 * 1.5 * 0.9).
Proof.
  assert (impact_metric (metadata digital_evidence) = Some 2) as H1 by reflexivity.
  assert (lookup_with_default personality_multipliers (personality juror1)
            (type digital_evidence) = Some 1.5) as H2 by (vm_compute; reflexivity).
  assert (lookup_with_default bias_modifiers (bias juror1) (type digital_evidence)
          = Some 0.9) as H3 by (vm_compute; reflexivity).
  split; [exact H1 | split; [exact H2 | split; [exact H3 |]]].
  exact (proj1 calculate_impact_is_product digital_evidence juror1 2 1.5 0.9 H1 H2 H3).
Defined.

(** C5 on a known kind and on the kind "Test". *)
Lemma calculate_impact_total_on_known_kinds_witness :
  (exists v, calculate_impact digital_evidence juror3 = Ok v) /\
  calculate_impact test_evidence juror3 = KeyError "Test".
Proof.
  split.
  - apply (proj1 (calculate_impact_total_on_known_kinds digital_evidence juror3 2 eq_refl)).
    apply (bool_decide_unpack _). vm_compute. exact I.
  - apply (proj2 (calculate_impact_total_on_known_kinds test_evidence juror3 1 eq_refl)).
    apply (bool_decide_unpack _). vm_compute. exact I.
Defined.

(** C6 for an empathetic juror under media attention and political
    pressure: both factors 0.9 apply. *)
Lemma evaluate_evidence_applies_nudges_witness :
  calculate_impact digital_evidence juror2 = Ok (2 * 0.8 * 0.8) /\
  exists v,
    evaluate_evidence digital_evidence media_case juror2 = (set_sentiment v juror2, Ok tt) /\
    v == sentiment juror2 + 2 * 0.8 * 0.8 * context_factor media_case (bias juror2).
Proof.
  assert (calculate_impact digital_evidence juror2 = Ok (2 * 0.8 * 0.8)) as H
    by (vm_compute; reflexivity).
  split; [exact H |].
  exact (evaluate_evidence_applies_nudges digital_evidence media_case juror2 _ H).
Defined.

(** C7 on a jury of three. *)
Lemma peer_influence_once_per_peer_witness :
  for_each [WitnessTestimony 2] replay_event juror1 = (set_sentiment 2 juror1, Ok tt) /\
  deliberate [WitnessTestimony 2] (jurors jury3) juror1
  = (set_sentiment
       (clamp (fold_left Qplus
                 (map (fun other => (persuasiveness other - persuasiveness juror1) * 0.5)
                      (peers juror1 (jurors jury3)))
                 (sentiment (set_sentiment 2 juror1))))
       juror1,
     Ok tt).
Proof.
  assert (for_each [WitnessTestimony 2] replay_event juror1
          = (set_sentiment 2 juror1, Ok tt)) as H by reflexivity.
  split; [exact H |].
  exact (proj1 peer_influence_once_per_peer _ (jurors jury3) _ _ H).
Defined.

(** C8 with the jurors of a jury of three visited as third, first, second. *)
Lemma deliberate_phase_order_independent_witness :
  Permutation [2; 0; 1]%nat (seq 0 (length (jurors jury3))) /\
  deliberate_phase_in [2; 0; 1]%nat jury3 = deliberate_phase jury3.
Proof.
  assert (Permutation [2; 0; 1]%nat (seq 0 (length (jurors jury3)))) as H.
  { simpl. apply Permutation_sym.
    apply (Permutation_cons_app [2%nat] [1%nat]). apply perm_swap. }
  split; [exact H |].
  apply (proj1 (proj2 (deliberate_phase_order_independent jury3 _ H))).
  vm_compute. reflexivity.
Defined.

(** C10 on a jury of three with persuasiveness 1, 1.5 and 0.5. *)
Lemma peer_influence_bounded_witness :
  Qabs (sentiment (fst (for_each (jurors jury3) peer_step juror1)) - sentiment juror1)
  <= 0.5 * inject_Z (Z.of_nat (length (peers juror1 (jurors jury3)))).
Proof.
  apply (peer_influence_bounded (jurors jury3) juror1).
  - split; vm_compute; discriminate.
  - repeat constructor; vm_compute; discriminate.
Defined.

(** * Further properties of the jury *)

(** *** Jury.__init__ *)

Lemma Qsum_all_zero (js : list Juror) :
  Forall (fun j => sentiment j = 0) js -> Qsum (map sentiment js) == 0.
Proof.
  induction 1 as [|j js Hj _ IH]; simpl; [done |]. rewrite Hj, IH. ring.
Qed.

(** X1: a new jury numbers its jurors 1, 2, ..., n in list order, so the ids
    are pairwise distinct; it has no juror when n is not positive; every
    sentiment is 0, the log is empty and the verdict of the untouched jury
    is "Not Guilty". *)
Theorem Jury_init_ids (n : Z) (draw : Z -> string * string * Q) :
  map id (jurors (Jury_init n draw)) = seqZ 1 n /\
  NoDup (map id (jurors (Jury_init n draw))) /\
  length (jurors (Jury_init n draw)) = Z.to_nat n /\
  Forall (fun j => sentiment j = 0) (jurors (Jury_init n draw)) /\
  trial_events (Jury_init n draw) = [] /\
  get_verdict (Jury_init n draw) = "Not Guilty".
Proof.
  assert (map id (jurors (Jury_init n draw)) = seqZ 1 n) as Hids.
  { unfold Jury_init. simpl. rewrite map_map.
    rewrite <- (map_id (seqZ 1 n)) at 2. apply map_ext.
    intros i. by destruct (draw i) as [[p b] u]. }
  assert (Forall (fun j => sentiment j = 0) (jurors (Jury_init n draw))) as Hzero.
  { unfold Jury_init. simpl. apply Forall_forall. intros j Hj.
    apply list_elem_of_fmap in Hj as (i & -> & _).
    by destruct (draw i) as [[p b] u]. }
  split; [exact Hids |]. split; [rewrite Hids; apply NoDup_seqZ |].
  split; [unfold Jury_init; simpl; by rewrite length_map, length_seqZ |].
  split; [exact Hzero |]. split; [reflexivity |].
  unfold get_verdict.
  assert (total_sentiment (Jury_init n draw) == 0) as H0.
  { rewrite total_sentiment_sum. by apply Qsum_all_zero. }
  destruct (Qltb 0 (total_sentiment (Jury_init n draw))) eqn:E; [| done].
  apply Qltb_lt in E. rewrite H0 in E. by apply Qlt_irrefl in E.
Qed.

(** *** Jury.assess_case *)

Lemma evaluate_evidence_run (e : Evidence) (ctx : CaseContext) (j : Juror) (i : Q) :
  calculate_impact e j = Ok i ->
  evaluate_evidence e ctx j = (evaluated e ctx j, Ok tt).
Proof.
  intros H. unfold evaluate_evidence, bind, get_state, lift, add_sentiment, modify.
  unfold evaluated, evidence_weight, impact_of. rewrite H. reflexivity.
Qed.

Lemma calculate_impact_set_sentiment (e : Evidence) (v : Q) (j : Juror) :
  calculate_impact e (set_sentiment v j) = calculate_impact e j.
Proof. reflexivity. Qed.

Lemma calculate_impact_returns (e : Evidence) (j : Juror) :
  evidence_error e = None -> calculate_impact e j = Ok (impact_of e j).
Proof.
  intros He. pose proof (calculate_impact_outcome e j) as H. rewrite He in H.
  destruct H as [v Hv]. unfold impact_of. by rewrite Hv.
Qed.

Lemma calculate_impact_fails (e : Evidence) (j : Juror) (key : string) :
  evidence_error e = Some key -> calculate_impact e j = KeyError key.
Proof.
  intros He. pose proof (calculate_impact_outcome e j) as H. by rewrite He in H.
Qed.

Lemma assess_case_unfold (e : Evidence) (ctx : CaseContext) (jury : Jury) :
  assess_case e ctx jury
  = for_each (seq 0 (length (jurors jury))) (assess_juror e ctx) jury.
Proof. reflexivity. Qed.

Section AssessCase.

Variable e : Evidence.
Variable ctx : CaseContext.
(** The jurors and the log before the call. *)
Variable s : list Juror.
Variable log0 : list TrialEvent.

Lemma assess_juror_step (a : nat) (j : Juror) :
  evidence_error e = None ->
  s !! a = Some j ->
  assess_juror e ctx a (assessed_upto e ctx s log0 a)
  = (assessed_upto e ctx s log0 (S a), Ok tt).
Proof.
  intros He Hj.
  assert (a < length s)%nat as Hlt by (by eapply lookup_lt_Some).
  assert (length (map (evaluated e ctx) (take a s)) = a) as Hla.
  { rewrite length_map, length_take. lia. }
  assert ((map (evaluated e ctx) (take a s) ++ drop a s)%list !! a = Some j) as Hlook.
  { rewrite lookup_app_r by lia. by rewrite Hla, Nat.sub_diag, lookup_drop, Nat.add_0_r. }
  assert (<[a := evaluated e ctx j]> (map (evaluated e ctx) (take a s) ++ drop a s)%list
          = (map (evaluated e ctx) (take a s) ++ evaluated e ctx j :: drop (S a) s)%list)
    as Hins.
  { rewrite insert_app_r_alt by lia. rewrite Hla, Nat.sub_diag.
    by rewrite (drop_S s j a Hj). }
  unfold assess_juror, bind, on_juror, assessed_upto.
  cbn [jurors trial_events]. rewrite Hlook.
  rewrite (evaluate_evidence_run e ctx j _ (calculate_impact_returns e j He)).
  unfold set_jurors, get_state. cbn [jurors trial_events]. rewrite Hins.
  rewrite lookup_app_r by lia. rewrite Hla, Nat.sub_diag. cbn [lookup list_lookup].
  unfold lift. rewrite (calculate_impact_returns e (evaluated e ctx j) He).
  unfold append_event, modify. cbn [jurors trial_events].
  rewrite (take_S_r s a j Hj), !map_app. cbn [map].
  by rewrite <- !app_assoc.
Qed.

Lemma assess_case_loop (k a : nat) :
  evidence_error e = None ->
  (a + k = length s)%nat ->
  for_each (seq a k) (assess_juror e ctx) (assessed_upto e ctx s log0 a)
  = (assessed_upto e ctx s log0 (length s), Ok tt).
Proof.
  intros He. revert a. induction k as [|k IH]; intros a Hlen.
  - simpl. replace a with (length s) by lia. reflexivity.
  - assert (a < length s)%nat as Hlt by lia.
    destruct (lookup_lt_is_Some_2 _ _ Hlt) as [j Hj].
    cbn [seq for_each]. unfold bind. rewrite (assess_juror_step a j He Hj).
    apply IH. lia.
Qed.

End AssessCase.

Lemma assess_case_returns (e : Evidence) (ctx : CaseContext) (jury : Jury) :
  evidence_error e = None ->
  assess_case e ctx jury
  = ({| jurors := map (evaluated e ctx) (jurors jury);
        trial_events := trial_events jury ++ map (presented e ctx) (jurors jury) |},
     Ok tt).
Proof.
  intros He. destruct jury as [s log0].
  rewrite assess_case_unfold. cbn [jurors trial_events].
  pose proof (assess_case_loop e ctx s log0 (length s) 0 He eq_refl) as H.
  unfold assessed_upto in H. rewrite take_0, drop_0, firstn_all, drop_all in H.
  cbn [map app] in H. rewrite !app_nil_r in H. exact H.
Qed.

(** X2: when [calculate_impact] finds its keys, [assess_case] returns; it
    has called [evaluate_evidence] once on every juror and appended to the
    log one evidence event per juror, in juror order, each carrying the
    value of [calculate_impact] for that juror. *)
Theorem assess_case_logs_one_event_per_juror (e : Evidence) (ctx : CaseContext)
  (jury : Jury) :
  evidence_ok e ->
  assess_case e ctx jury
  = ({| jurors := map (fun j => fst (evaluate_evidence e ctx j)) (jurors jury);
        trial_events :=
          trial_events jury
          ++ map (fun j => EvidencePresented e ctx (impact_of e j)) (jurors jury) |},
     Ok tt) /\
  (forall j, calculate_impact e j = Ok (impact_of e j)) /\
  length (trial_events (fst (assess_case e ctx jury)))
  = (length (trial_events jury) + length (jurors jury))%nat.
Proof.
  intros He%evidence_error_None.
  assert (forall j, calculate_impact e j = Ok (impact_of e j)) as Hci
    by (intros j; by apply calculate_impact_returns).
  rewrite (assess_case_returns e ctx jury He). split; [| split; [exact Hci |]].
  - do 2 f_equal. apply map_ext. intros j.
    by rewrite (evaluate_evidence_run e ctx j _ (Hci j)).
  - cbn [fst trial_events]. by rewrite length_app, length_map.
Qed.

(** X3: when [calculate_impact] misses a key, [assess_case] on a jury that
    has a juror raises that [KeyError] at the first juror and leaves the
    jurors and the log as they were; on a jury without jurors it returns. *)
Theorem assess_case_raises_unchanged (e : Evidence) (ctx : CaseContext)
  (jury : Jury) (key : string) :
  evidence_error e = Some key ->
  assess_case e ctx jury
  = (jury, match jurors jury with [] => Ok tt | _ => KeyError key end).
Proof.
  intros He. destruct jury as [[|j s] log0]; [reflexivity |].
  rewrite assess_case_unfold. cbn [jurors length seq for_each].
  unfold bind at 1. unfold assess_juror, bind, on_juror. cbn [jurors lookup list_lookup].
  rewrite (evaluate_evidence_raises e ctx j key (calculate_impact_fails e j key He)).
  reflexivity.
Qed.

(** *** Evidence is replayed once per log entry *)

Lemma Qltb_proper (x x' y y' : Q) : x == x' -> y == y' -> Qltb x y = Qltb x' y'.
Proof. intros Hx Hy. unfold Qltb. by rewrite Hx, Hy. Qed.

Lemma clamp_proper (x y : Q) : x == y -> clamp x == clamp y.
Proof.
  intros H. unfold clamp, py_max, py_min.
  rewrite (Qltb_proper 5 5 x y (Qeq_refl 5) H).
  destruct (Qltb 5 y); [reflexivity |].
  rewrite (Qltb_proper x y (-5) (-5) H (Qeq_refl _)).
  by destruct (Qltb y (-5)).
Qed.

Lemma iter_add_weight (n : nat) (w v : Q) :
  Nat.iter n (fun x => x + w) v == v + inject_Z (Z.of_nat n) * w.
Proof.
  induction n as [|n IH].
  - simpl. ring.
  - rewrite Nat.iter_succ, IH, Nat2Z.inj_succ, <- Z.add_1_r, inject_Z_plus. ring.
Qed.

Lemma replay_presented (e : Evidence) (ctx : CaseContext) (served : list Juror)
  (j : Juror) :
  evidence_error e = None ->
  for_each (map (presented e ctx) served) replay_event j
  = (set_sentiment
       (Nat.iter (length served) (fun x => x + evidence_weight e ctx j) (sentiment j)) j,
     Ok tt).
Proof.
  intros He. revert j. induction served as [|o served IH]; intros j.
  - simpl. by rewrite set_sentiment_id.
  - cbn [map for_each length]. unfold bind. cbn [presented replay_event].
    rewrite (evaluate_evidence_run e ctx j _ (calculate_impact_returns e j He)).
    rewrite IH. unfold evaluated. rewrite Nat.iter_succ_r. reflexivity.
Qed.

Lemma evidence_weight_only_sentiment (e : Evidence) (ctx : CaseContext) (j j' : Juror) :
  only_sentiment j j' -> evidence_weight e ctx j' = evidence_weight e ctx j.
Proof. intros ->. reflexivity. Qed.

Lemma roster_evaluated (e : Evidence) (ctx : CaseContext) (s : list Juror) :
  roster (map (evaluated e ctx) s) = roster s.
Proof. unfold roster. rewrite map_map. by apply map_ext. Qed.

(** X4: presenting one piece of evidence and then deliberating counts the
    evidence once at presentation and once more per juror of the jury at
    deliberation: the log holds one entry per juror and every juror replays
    all of them.  With N jurors, a juror's sentiment before the final clamp
    is what the replay of the earlier log leaves, plus N times the weight of
    the evidence for that juror, plus the peer influence. *)
Theorem deliberation_replays_evidence_per_juror (e : Evidence) (ctx : CaseContext)
  (jury : Jury) :
  evidence_ok e ->
  Forall event_ok (trial_events jury) ->
  exists jury',
    bind (assess_case e ctx) (fun _ => deliberate_phase) jury = (jury', Ok tt) /\
    Forall2
      (fun j j' =>
         only_sentiment j j' /\
         sentiment j'
         == clamp (sentiment (fst (for_each (trial_events jury) replay_event
                                     (fst (evaluate_evidence e ctx j))))
                   + inject_Z (Z.of_nat (length (jurors jury)))
                     * (sentiment (fst (evaluate_evidence e ctx j)) - sentiment j)
                   + Qsum (map (influence j) (peers j (jurors jury)))))
      (jurors jury) (jurors jury').
Proof.
  intros He%evidence_error_None Hlog%replay_error_None.
  destruct jury as [s log0]. cbn [jurors trial_events] in *.
  set (log1 := (log0 ++ map (presented e ctx) s)%list).
  set (s1 := map (evaluated e ctx) s).
  assert (replay_error log1 = None) as Hlog1.
  { apply replay_error_None, Forall_app. split; [by apply replay_error_None |].
    apply Forall_forall. intros ev (o & -> & _)%list_elem_of_fmap.
    by apply evidence_error_None. }
  exists {| jurors := deliberated log1 s1; trial_events := log1 |}. split.
  - unfold bind. rewrite (assess_case_returns e ctx _ He). cbn [jurors trial_events].
    rewrite deliberate_phase_as_ordered. cbn [jurors].
    by apply deliberate_phase_in_permutation_ok.
  - cbn [jurors]. unfold deliberated, s1. rewrite map_map.
    apply Forall2_fmap_r, Forall_Forall2_diag, Forall_forall. intros j _.
    rewrite (evaluate_evidence_run e ctx j _ (calculate_impact_returns e j He)).
    unfold compose. cbn beta. cbn [fst].
    rewrite deliberate_unfold. unfold log1. rewrite for_each_app. unfold bind.
    destruct (replay_outcome log0 (evaluated e ctx j)) as [Hj0 Hout].
    destruct (for_each log0 replay_event (evaluated e ctx j)) as [j0 r0].
    cbn [fst snd] in *. rewrite Hlog in Hout. subst r0. cbn [outcome_of].
    rewrite (replay_presented e ctx s j0 He). cbn [fst sentiment set_sentiment].
    split; [unfold only_sentiment, evaluated; reflexivity |].
    apply clamp_proper. rewrite fold_left_Qplus_sum, iter_add_weight.
    rewrite (evidence_weight_only_sentiment e ctx _ _ Hj0).
    rewrite (peers_influence_ext (evaluated e ctx j) (map (evaluated e ctx) s) s
               (roster_evaluated e ctx s)).
    unfold evaluated. cbn [sentiment set_sentiment].
    change (peers (set_sentiment _ j) s) with (peers j s).
    change (influence (set_sentiment _ j)) with (influence j).
    change (evidence_weight e ctx (set_sentiment _ j)) with (evidence_weight e ctx j).
    ring.
Qed.

(** *** Peer influence in a jury with distinct ids *)

Lemma Qsum_map_ext_in {A} (f g : A -> Q) (l : list A) :
  (forall x, x ∈ l -> f x == g x) -> Qsum (map f l) == Qsum (map g l).
Proof.
  induction l as [|x l IH]; intros H; simpl; [done |].
  rewrite (H x) by apply list_elem_of_here.
  rewrite IH; [done |]. intros y Hy. apply H. by apply list_elem_of_further.
Qed.

Lemma Qsum_map_affine {A} (f g : A -> Q) (c t n : Q) (l : list A) :
  Qsum (map (fun x => f x + c * (t - n * g x)) l)
  == Qsum (map f l)
     + c * (inject_Z (Z.of_nat (length l)) * t - n * Qsum (map g l)).
Proof.
  induction l as [|x l IH]; simpl length; simpl Qsum.
  - ring.
  - rewrite IH, Nat2Z.inj_succ, <- Z.add_1_r, inject_Z_plus. ring.
Qed.

Lemma same_id_same_juror (all : list Juror) (a b : Juror) :
  NoDup (map id all) -> a ∈ all -> b ∈ all -> id a = id b -> a = b.
Proof.
  induction all as [|x all IH]; intros Hnd Ha Hb Hid; [by apply elem_of_nil in Ha |].
  apply NoDup_cons in Hnd as [Hx Hnd].
  apply elem_of_cons in Ha as [-> | Ha]; apply elem_of_cons in Hb as [-> | Hb].
  - done.
  - exfalso. apply Hx. rewrite Hid. by apply list_elem_of_fmap_2.
  - exfalso. apply Hx. rewrite <- Hid. by apply list_elem_of_fmap_2.
  - by apply IH.
Qed.

Lemma peers_influence_sum (self : Juror) (all : list Juror) :
  (forall o, o ∈ all -> id o = id self -> persuasiveness o = persuasiveness self) ->
  Qsum (map (influence self) (peers self all))
  == 0.5 * (Qsum (map persuasiveness all)
            - inject_Z (Z.of_nat (length all)) * persuasiveness self).
Proof.
  induction all as [|o all IH]; intros H; simpl length; simpl Qsum.
  - change (peers self []) with (@nil Juror). simpl. ring.
  - unfold peers. rewrite filter_cons. fold (peers self all).
    assert (Qsum (map (influence self) (peers self all))
            == 0.5 * (Qsum (map persuasiveness all)
                      - inject_Z (Z.of_nat (length all)) * persuasiveness self)) as IH'.
    { apply IH. intros o' Ho'. apply H. by apply list_elem_of_further. }
    rewrite Nat2Z.inj_succ, <- Z.add_1_r, inject_Z_plus.
    case_decide as Hid.
    + simpl. rewrite IH'. unfold influence. ring.
    + assert (id o = id self) as Heq by (by symmetry).
      rewrite IH'. simpl. rewrite (H o (list_elem_of_here _ _) Heq). ring.
Qed.

(** X5: in a juror list with pairwise distinct ids, the peer loop moves a
    juror of the list by half the difference between the total
    persuasiveness and N times its own, and the moves of all the jurors
    cancel: before the clamp, peer influence leaves the total sentiment of
    the jury as it was. *)
Theorem peer_influence_zero_sum (all : list Juror) :
  NoDup (map id all) ->
  (forall self, self ∈ all ->
     sentiment (fst (for_each all peer_step self))
     == sentiment self
        + 0.5 * (Qsum (map persuasiveness all)
                 - inject_Z (Z.of_nat (length all)) * persuasiveness self)) /\
  Qsum (map (fun self => sentiment (fst (for_each all peer_step self))) all)
  == Qsum (map sentiment all).
Proof.
  intros Hnd.
  assert (forall self, self ∈ all ->
            sentiment (fst (for_each all peer_step self))
            == sentiment self
               + 0.5 * (Qsum (map persuasiveness all)
                        - inject_Z (Z.of_nat (length all)) * persuasiveness self)) as Hone.
  { intros self Hself. rewrite peer_pass. cbn [fst sentiment set_sentiment].
    rewrite fold_left_Qplus_sum, peers_influence_sum; [done |].
    intros o Ho Hid. by rewrite (same_id_same_juror all o self Hnd Ho Hself Hid). }
  split; [exact Hone |].
  rewrite (Qsum_map_ext_in _ _ all Hone).
  rewrite (Qsum_map_affine sentiment persuasiveness 0.5
             (Qsum (map persuasiveness all)) (inject_Z (Z.of_nat (length all))) all).
  ring.
Qed.

(** *** The game flow between presentation and deliberation *)

Lemma shifted_refl (jury : Jury) : shifted 0 [] jury jury.
Proof.
  split; [by rewrite app_nil_r |].
  apply Forall_Forall2_diag, Forall_forall. intros j _.
  split; [apply only_sentiment_refl | by rewrite Qplus_0_r].
Qed.

Lemma shifted_trans (d1 d2 : Q) (log1 log2 : list TrialEvent) (j1 j2 j3 : Jury) :
  shifted d1 log1 j1 j2 -> shifted d2 log2 j2 j3 ->
  shifted (d1 + d2) (log1 ++ log2)%list j1 j3.
Proof.
  intros [He1 Hj1] [He2 Hj2]. split; [by rewrite He2, He1, app_assoc |].
  eapply Forall2_trans; [| exact Hj1 | exact Hj2].
  intros a b c [Hab Hsab] [Hbc Hsbc]. split; [by eapply only_sentiment_trans |].
  rewrite Hsbc, Hsab. ring.
Qed.

Lemma shifted_proper (d d' : Q) (log : list TrialEvent) (j1 j2 : Jury) :
  d == d' -> shifted d log j1 j2 -> shifted d' log j1 j2.
Proof.
  intros Hd [He Hj]. split; [done |].
  eapply Forall2_impl; [exact Hj |]. intros a b [Hab Hs]. split; [done |].
  by rewrite Hs, Hd.
Qed.

Lemma shifted_bump_iter (n : nat) (jury : Jury) :
  shifted (inject_Z (Z.of_nat n)) [] jury (Nat.iter n (bump 1) jury).
Proof.
  destruct (bump_iter_sentiments n jury) as [H1 H2].
  split; [by rewrite H2, app_nil_r | exact H1].
Qed.

Lemma shifted_log_event (event : TrialEvent) (jury : Jury) :
  shifted 0 [event] jury (log_event event jury).
Proof.
  split; [reflexivity |]. cbn [jurors log_event].
  apply Forall_Forall2_diag, Forall_forall. intros j _.
  split; [apply only_sentiment_refl | by rewrite Qplus_0_r].
Qed.

Lemma examine_questions_shifted (sel : list (string * Evidence))
  (questions : list Question) (jury : Jury) :
  exists jury',
    for_each questions (examine_question sel) jury
    = (jury', if existsb objected questions then TypeError else Ok tt) /\
    shifted (inject_Z (Z.of_nat (synergy_count sel * length (examined questions))))
            (map (fun q => WitnessTestimony (testimony_impact q)) (examined questions))
            jury jury'.
Proof.
  revert jury. induction questions as [|q questions IH]; intros jury.
  - exists jury. split; [reflexivity |]. rewrite Nat.mul_0_r. apply shifted_refl.
  - pose proof (shifted_trans _ _ _ _ _ _ _
                  (shifted_bump_iter (synergy_count sel) jury)
                  (shifted_log_event (WitnessTestimony (testimony_impact q)) _)) as H1.
    cbn [app] in H1.
    cbn [for_each existsb examined]. unfold bind. rewrite examine_question_spec.
    destruct (objected q); cbn [orb].
    + eexists. split; [reflexivity |]. cbn [length map].
      eapply shifted_proper; [| exact H1]. rewrite Nat.mul_1_r. ring.
    + destruct (IH (log_event (WitnessTestimony (testimony_impact q))
                      (Nat.iter (synergy_count sel) (bump 1) jury)))
        as (jury' & Hrun & H2).
      exists jury'. split; [exact Hrun |]. cbn [length map].
      pose proof (shifted_trans _ _ _ _ _ _ _ H1 H2) as H. cbn [app] in H.
      eapply shifted_proper; [| exact H].
      rewrite Nat.mul_succ_r, Nat2Z.inj_add, inject_Z_plus. ring.
Qed.

Lemma for_each_ext {S A} (body1 body2 : A -> M S unit) (l : list A) (s : S) :
  (forall x s0, body1 x s0 = body2 x s0) ->
  for_each l body1 s = for_each l body2 s.
Proof.
  intros Hext. revert s. induction l as [|x l IH]; intros s; [reflexivity |].
  cbn [for_each]. unfold bind. rewrite Hext.
  destruct (body2 x s) as [s' [[]|k|]]; [apply IH | reflexivity..].
Qed.

Lemma for_each_concat_map {S A B} (h : B -> list A) (l : list B)
  (body : A -> M S unit) (s : S) :
  for_each l (fun x => for_each (h x) body) s = for_each (concat (map h l)) body s.
Proof.
  revert s. induction l as [|x l IH]; intros s; [reflexivity |].
  cbn [for_each map concat]. rewrite for_each_app. unfold bind.
  destruct (for_each (h x) body s) as [s' [[]|k|]]; [apply IH | reflexivity..].
Qed.

Lemma examine_witnesses_as_questions (sel : list (string * Evidence))
  (witnesses : list (Question * Question * Question)) (jury : Jury) :
  examine_witnesses sel witnesses jury
  = for_each (concat (map questions_of witnesses)) (examine_question sel) jury.
Proof.
  rewrite <- for_each_concat_map. unfold examine_witnesses.
  apply for_each_ext. by intros [[q1 q2] q3] s0.
Qed.

(** X6: what [examine_witnesses] does to the jury.  The questions are
    examined up to the first one that meets an objection, the player's or
    the opposing side's: there [judge_ruling] raises [TypeError] and the
    examination ends; without any objection it returns.  Each question
    examined, the last one included, appends one witness-testimony event to
    the log, in the order of the questions, and adds the number of synergy
    pairs to every juror's sentiment.  No other field of a juror changes. *)
Theorem examine_witnesses_log_and_shift (sel : list (string * Evidence))
  (witnesses : list (Question * Question * Question)) (jury : Jury) :
  let questions := concat (map questions_of witnesses) in
  exists jury',
    examine_witnesses sel witnesses jury
    = (jury', if existsb objected questions then TypeError else Ok tt) /\
    trial_events jury'
    = (trial_events jury
       ++ map (fun q => WitnessTestimony (testimony_impact q)) (examined questions))%list /\
    Forall2
      (fun j j' =>
         only_sentiment j j' /\
         sentiment j'
         == sentiment j
            + inject_Z (Z.of_nat (synergy_count sel * length (examined questions))))
      (jurors jury) (jurors jury').
Proof.
  intros questions. rewrite examine_witnesses_as_questions. fold questions.
  destruct (examine_questions_shifted sel questions jury) as (jury' & Hrun & [Hlog Hs]).
  exists jury'. done.
Qed.

(** *** The verdict and the sentiment labels *)

Lemma Qsum_le (l l' : list Q) : Forall2 Qle l l' -> Qsum l <= Qsum l'.
Proof.
  induction 1 as [|x y l l' Hxy _ IH]; simpl; [apply Qle_refl |].
  by apply Qplus_le_compat.
Qed.

(** X8: the verdict is monotone in the sentiments: if no juror's sentiment
    goes down, a "Guilty" verdict stays "Guilty" (and a "Not Guilty" verdict
    cannot be reached from a "Guilty" one by raising sentiments). *)
Theorem get_verdict_monotone (jury jury' : Jury) :
  Forall2 (fun j j' => sentiment j <= sentiment j') (jurors jury) (jurors jury') ->
  get_verdict jury = "Guilty" -> get_verdict jury' = "Guilty".
Proof.
  intros Hle. unfold get_verdict.
  destruct (Qltb 0 (total_sentiment jury)) eqn:E; [intros _ | done].
  apply Qltb_lt in E.
  assert (0 < total_sentiment jury') as E'.
  { eapply Qlt_le_trans; [exact E |]. rewrite !total_sentiment_sum.
    apply Qsum_le. apply Forall2_fmap. exact Hle. }
  apply Qltb_lt in E'. by rewrite E'.
Qed.

(** X9: the label of a sentiment is "Negative" below 0, "Positive" above 0
    and "Neutral" at 0, and the three cases exclude one another; a jury of a
    single juror votes "Guilty" exactly when that juror's label is
    "Positive". *)
Theorem get_sentiment_label_sign (s : Q) :
  (get_sentiment_label s = "Negative" <-> s < 0) /\
  (get_sentiment_label s = "Positive" <-> 0 < s) /\
  (get_sentiment_label s = "Neutral" <-> s == 0) /\
  (forall j events,
     sentiment j = s ->
     (get_verdict {| jurors := [j]; trial_events := events |} = "Guilty"
      <-> get_sentiment_label s = "Positive")).
Proof.
  assert ((get_sentiment_label s = "Negative" <-> s < 0) /\
          (get_sentiment_label s = "Positive" <-> 0 < s) /\
          (get_sentiment_label s = "Neutral" <-> s == 0)) as H.
  { unfold get_sentiment_label.
    destruct (Qltb s 0) eqn:E1.
    - apply Qltb_lt in E1. repeat split; try done.
      + intros H. exfalso. by apply (Qlt_irrefl s); eapply Qlt_trans.
      + intros H. rewrite H in E1. by apply Qlt_irrefl in E1.
    - apply Qltb_ge in E1. destruct (Qltb 0 s) eqn:E2.
      + apply Qltb_lt in E2. repeat split; try done.
        * intros H. by apply Qlt_not_le in H.
        * intros H. rewrite H in E2. by apply Qlt_irrefl in E2.
      + apply Qltb_ge in E2. repeat split; try done.
        * intros H. by apply Qlt_not_le in H.
        * intros H. by apply Qlt_not_le in H.
        * intros _. by apply Qle_antisym. }
  destruct H as (H1 & H2 & H3). repeat split; try apply H1; try apply H2; try apply H3.
  - intros Hv. apply H2. unfold get_verdict in Hv.
    destruct (Qltb 0 _) eqn:E; [| done]. apply Qltb_lt in E.
    rewrite total_sentiment_sum in E. simpl in E. rewrite H in E.
    by rewrite Qplus_0_r in E.
  - intros Hl. apply H2 in Hl. unfold get_verdict.
    assert (0 < total_sentiment {| jurors := [j]; trial_events := events |}) as E.
    { rewrite total_sentiment_sum. simpl. rewrite H. by rewrite Qplus_0_r. }
    apply Qltb_lt in E. by rewrite E.
Qed.

(** *** Objections *)

Lemma verdict_stays_guilty (jury jury' : Jury) :
  Forall2 (fun j j' => sentiment j <= sentiment j') (jurors jury) (jurors jury') ->
  get_verdict jury = "Guilty" -> get_verdict jury' = "Guilty".
Proof.
  intros Hle. unfold get_verdict.
  destruct (Qltb 0 (total_sentiment jury)) eqn:E; [intros _ | done].
  apply Qltb_lt in E.
  assert (0 < total_sentiment jury') as E'.
  { eapply Qlt_le_trans; [exact E |]. rewrite !total_sentiment_sum.
    apply Qsum_le. apply Forall2_fmap. exact Hle. }
  apply Qltb_lt in E'. by rewrite E'.
Qed.

(** X7: [raise_objection] never reaches its loops over the jurors: the call
    of [judge_ruling] raises [TypeError] and the jury is left as it was.  So
    neither the +1 of a sustained objection nor the -1 of an overruled one
    is ever applied, [examine_witnesses] lowers no juror's sentiment, and a
    jury that would vote "Guilty" before the examination would still do so
    after it. *)
Theorem raise_objection_never_writes :
  (forall (objection_type question : string) (jury : Jury),
     raise_objection objection_type question jury = (jury, TypeError)) /\
  (forall (sel : list (string * Evidence))
          (witnesses : list (Question * Question * Question)) (jury : Jury),
     Forall2 (fun j j' => sentiment j <= sentiment j')
             (jurors jury) (jurors (fst (examine_witnesses sel witnesses jury))) /\
     (get_verdict jury = "Guilty" ->
      get_verdict (fst (examine_witnesses sel witnesses jury)) = "Guilty")).
Proof.
  split; [intros; apply raise_objection_spec |].
  intros sel witnesses jury.
  assert (Forall2 (fun j j' => sentiment j <= sentiment j')
            (jurors jury) (jurors (fst (examine_witnesses sel witnesses jury)))) as H.
  { rewrite examine_witnesses_as_questions.
    destruct (examine_questions_shifted sel (concat (map questions_of witnesses)) jury)
      as (jury' & -> & [_ Hs]).
    cbn [fst]. eapply Forall2_impl; [exact Hs |]. intros j j' [_ ->].
    rewrite <- (Qplus_0_r (sentiment j)) at 1.
    apply Qplus_le_compat; [apply Qle_refl |].
    change 0 with (inject_Z 0). rewrite <- Zle_Qle. lia. }
  split; [exact H | by apply verdict_stays_guilty].
Qed.

(** * Witnesses *)

Lemma update_stress_unfold (strategy : string) (w : Witness.t) :
  Witness.update_stress strategy w
  = match Witness.personalities w with
    | p :: _ =>
        match Witness.stress_modifiers !! strategy with
        | Some row =>
            (Witness.set_stress
               (Z.max (Z.min (Witness.stress w
                              + dict_get row p (dict_get row "DEFAULT" 0%Z)) 10) 0) w,
             Ok tt)
        | None => (w, KeyError strategy)
        end
    | [] =>
        (Witness.set_stress
           (Z.max (Z.min (Witness.stress w
                          + dict_get (dict_get Witness.stress_modifiers strategy ∅)
                                     "DEFAULT" 0%Z) 10) 0) w,
         Ok tt)
    end.
Proof.
  unfold Witness.update_stress, bind, get_state, lift, modify.
  destruct (Witness.personalities w) as [|p ps]; [reflexivity |].
  unfold dict_index, result_bind.
  unfold dict_get at 3. 
  destruct (Witness.stress_modifiers !! strategy) as [row|]; reflexivity.
Qed.

Lemma stress_modifiers_known (strategy : string) :
  is_Some (Witness.stress_modifiers !! strategy)
  <-> strategy ∈ ["Aggressive"; "Neutral"; "Friendly"].
Proof.
  unfold Witness.stress_modifiers.
  rewrite !elem_of_cons, elem_of_nil.
  rewrite !lookup_insert_is_Some, lookup_singleton_is_Some.
  split.
  - intros [<- | [_ [<- | [_ <-]]]]; tauto.
  - intros [-> | [-> | [-> | []]]]; [left | right; split; [done | left] |
                                     right; split; [done | right; split; done]]; done.
Qed.

(** X10: whatever the stress before and whatever the strategy and the
    personalities, a call of [update_stress] that returns leaves the stress
    between 0 and 10; the same holds after [respond]. *)
Theorem update_stress_in_range (strategy : string) (w : Witness.t) :
  (snd (Witness.update_stress strategy w) = Ok tt ->
   (0 <= Witness.stress (fst (Witness.update_stress strategy w)) <= 10)%Z) /\
  (forall question ai_response roll,
     is_ok (snd (Witness.respond question strategy ai_response roll w)) = true ->
     (0 <= Witness.stress (fst (Witness.respond question strategy ai_response roll w))
      <= 10)%Z).
Proof.
  assert (snd (Witness.update_stress strategy w) = Ok tt ->
          (0 <= Witness.stress (fst (Witness.update_stress strategy w)) <= 10)%Z) as H.
  { rewrite update_stress_unfold.
    destruct (Witness.personalities w) as [|p ps].
    - intros _. simpl. lia.
    - destruct (Witness.stress_modifiers !! strategy) as [row|]; [| done].
      intros _. simpl. lia. }
  split; [exact H |].
  intros question ai_response roll. unfold Witness.respond, bind.
  destruct (Witness.update_stress strategy w) as [w1 [[]|k|]]; [| done..].
  intros _. simpl. by apply H.
Qed.

(** X11: [update_stress] raises exactly when the witness has a personality
    and the strategy is none of "Aggressive", "Neutral" and "Friendly"; it
    then raises [KeyError] on the strategy and leaves the witness as it was.
    A witness without personalities takes any strategy. *)
Theorem update_stress_raises_iff (strategy : string) (w : Witness.t) :
  (Witness.personalities w <> [] /\
   strategy ∉ ["Aggressive"; "Neutral"; "Friendly"] ->
   Witness.update_stress strategy w = (w, KeyError strategy)) /\
  (Witness.personalities w = [] \/
   strategy ∈ ["Aggressive"; "Neutral"; "Friendly"] ->
   snd (Witness.update_stress strategy w) = Ok tt).
Proof.
  rewrite update_stress_unfold. split.
  - intros [Hp Hs]. destruct (Witness.personalities w) as [|p ps]; [done |].
    rewrite <- stress_modifiers_known in Hs.
    destruct (Witness.stress_modifiers !! strategy) as [row|] eqn:E; [| done].
    exfalso. apply Hs. by exists row.
  - intros [Hp | Hs].
    + by rewrite Hp.
    + destruct (Witness.personalities w) as [|p ps]; [done |].
      apply stress_modifiers_known in Hs as [row ->]. done.
Qed.

Lemma dict_get_Forall (P : Z -> Prop) (row : gmap string Z) (p : string) (d : Z) :
  map_Forall (fun _ v => P v) row -> P d -> P (dict_get row p d).
Proof.
  intros Hrow Hd. unfold dict_get. destruct (row !! p) as [v|] eqn:E; [| done].
  by apply (Hrow p v).
Qed.

Lemma update_stress_first_personality (strategy : string) (w w' : Witness.t) :
  Witness.stress w = Witness.stress w' ->
  head (Witness.personalities w) = head (Witness.personalities w') ->
  Witness.stress (fst (Witness.update_stress strategy w))
  = Witness.stress (fst (Witness.update_stress strategy w')) /\
  snd (Witness.update_stress strategy w) = snd (Witness.update_stress strategy w').
Proof.
  intros Hs Hp. rewrite !update_stress_unfold.
  destruct (Witness.personalities w) as [|p ps];
    destruct (Witness.personalities w') as [|p' ps']; try done.
  - simpl. by rewrite Hs.
  - injection Hp as <-.
    destruct (Witness.stress_modifiers !! strategy) as [row|]; simpl; [by rewrite Hs | done].
Qed.

(** X12: for a witness whose stress is between 0 and 10, aggressive and
    neutral questioning never lower the stress, and friendly questioning
    never raises it unless the first personality is "Suspicious", in which
    case it raises it by 1 up to the cap of 10.  Only the first personality
    of the list counts. *)
Theorem update_stress_direction (w : Witness.t) :
  (0 <= Witness.stress w <= 10)%Z ->
  (forall strategy, strategy ∈ ["Aggressive"; "Neutral"] ->
     (Witness.stress w <= Witness.stress (fst (Witness.update_stress strategy w)))%Z) /\
  (head (Witness.personalities w) <> Some "Suspicious" ->
   (Witness.stress (fst (Witness.update_stress "Friendly" w)) <= Witness.stress w)%Z) /\
  (head (Witness.personalities w) = Some "Suspicious" ->
   Witness.stress (fst (Witness.update_stress "Friendly" w))
   = Z.min (Witness.stress w + 1) 10) /\
  (forall strategy w',
     Witness.stress w' = Witness.stress w ->
     head (Witness.personalities w') = head (Witness.personalities w) ->
     Witness.stress (fst (Witness.update_stress strategy w'))
     = Witness.stress (fst (Witness.update_stress strategy w))).
Proof.
  intros Hrange. split; [| split; [| split]].
  - intros strategy Hs. rewrite update_stress_unfold.
    apply elem_of_cons in Hs as [-> | Hs];
      [| apply elem_of_cons in Hs as [-> | Hs]; [| by apply elem_of_nil in Hs]].
    + destruct (Witness.personalities w) as [|p ps]; [simpl; vm_compute dict_get; lia |].
      change (Witness.stress_modifiers !! "Aggressive")
        with (Some ({[ "Nervous" := 3; "Defensive" := 2; "Evasive" := 2;
                       "DEFAULT" := 2 ]}%Z : gmap string Z)).
      cbn [fst Witness.stress Witness.set_stress].
      match goal with |- context [dict_get ?row p ?d] =>
        assert (2 <= dict_get row p d)%Z as Hm
      end.
      { apply dict_get_Forall; [| by vm_compute].
        repeat (apply map_Forall_insert_2; [lia |]). apply map_Forall_empty. }
      lia.
    + destruct (Witness.personalities w) as [|p ps]; [simpl; vm_compute dict_get; lia |].
      change (Witness.stress_modifiers !! "Neutral")
        with (Some ({[ "DEFAULT" := 1 ]}%Z : gmap string Z)).
      cbn [fst Witness.stress Witness.set_stress].
      match goal with |- context [dict_get ?row p ?d] =>
        assert (1 <= dict_get row p d)%Z as Hm
      end.
      { apply dict_get_Forall; [| by vm_compute].
        repeat (apply map_Forall_insert_2; [lia |]). apply map_Forall_empty. }
      lia.
  - intros Hp. rewrite update_stress_unfold.
    destruct (Witness.personalities w) as [|p ps]; [simpl; vm_compute dict_get; lia |].
    change (Witness.stress_modifiers !! "Friendly")
      with (Some ({[ "Suspicious" := 1; "Evasive" := -2; "DEFAULT" := -1 ]}%Z
                  : gmap string Z)).
    cbn [fst Witness.stress Witness.set_stress].
    assert (p <> "Suspicious") as Hne by (intros ->; by apply Hp).
    match goal with |- context [dict_get ?row p ?d] =>
      assert (dict_get row p d <= 0)%Z as Hm
    end.
    { unfold dict_get at 1. rewrite lookup_insert_ne by done.
      apply (dict_get_Forall (fun v => v <= 0)%Z); [| by vm_compute].
      repeat (apply map_Forall_insert_2; [lia |]). apply map_Forall_empty. }
    lia.
  - intros Hp. rewrite update_stress_unfold.
    destruct (Witness.personalities w) as [|p ps]; [done |].
    injection Hp as ->.
    change (Witness.stress_modifiers !! "Friendly")
      with (Some ({[ "Suspicious" := 1; "Evasive" := -2; "DEFAULT" := -1 ]}%Z
                  : gmap string Z)).
    cbn [fst Witness.stress Witness.set_stress].
    match goal with |- context [dict_get ?row "Suspicious" ?d] =>
      assert (dict_get row "Suspicious" d = 1%Z) as -> by (vm_compute; reflexivity)
    end.
    lia.
  - intros strategy w' Hs Hp.
    by apply update_stress_first_personality.
Qed.

(** *** Witness.respond *)

Lemma odict_get_set_eq (k v : string) (d : list (string * string)) :
  Witness.odict_get k (Witness.odict_set k v d) = Some v.
Proof.
  induction d as [|[k' v'] d IH]; simpl.
  - by rewrite String.eqb_refl.
  - destruct (String.eqb k' k) eqn:E; simpl; rewrite E; [done | exact IH].
Qed.

Lemma odict_get_set_ne (k k2 v : string) (d : list (string * string)) :
  k2 <> k ->
  Witness.odict_get k2 (Witness.odict_set k v d) = Witness.odict_get k2 d.
Proof.
  intros Hne. induction d as [|[k' v'] d IH]; simpl.
  - destruct (String.eqb_spec k k2); [congruence | done].
  - destruct (String.eqb_spec k' k) as [-> | Hk]; simpl.
    + destruct (String.eqb_spec k k2); [congruence | done].
    + destruct (String.eqb k' k2); [done | exact IH].
Qed.

Lemma odict_get_None (k : string) (d : list (string * string)) :
  Witness.odict_get k d = None <-> k ∉ map fst d.
Proof.
  induction d as [|[k' v'] d IH]; simpl.
  - split; [intros _; apply not_elem_of_nil | done].
  - rewrite not_elem_of_cons. destruct (String.eqb_spec k' k) as [-> | Hk].
    + split; [done | by intros [? _]].
    + rewrite IH. split; [by intros ? | by intros [_ ?]]. 
Qed.

Lemma odict_set_keys (k v : string) (d : list (string * string)) :
  map fst (Witness.odict_set k v d)
  = match Witness.odict_get k d with
    | Some _ => map fst d
    | None => (map fst d ++ [k])%list
    end.
Proof.
  induction d as [|[k' v'] d IH]; simpl; [done |].
  destruct (String.eqb k' k) eqn:E; simpl; [done |].
  rewrite IH. by destruct (Witness.odict_get k d).
Qed.

Lemma odict_set_NoDup (k v : string) (d : list (string * string)) :
  NoDup (map fst d) -> NoDup (map fst (Witness.odict_set k v d)).
Proof.
  intros Hnd. rewrite odict_set_keys.
  destruct (Witness.odict_get k d) eqn:E; [done |].
  apply NoDup_app. split; [done |]. split; [| apply NoDup_singleton].
  intros x Hx Hk. apply list_elem_of_singleton in Hk as ->.
  by apply odict_get_None in E.
Qed.

Lemma update_stress_keeps (strategy : string) (w : Witness.t) :
  exists v, fst (Witness.update_stress strategy w) = Witness.set_stress v w.
Proof.
  rewrite update_stress_unfold.
  destruct (Witness.personalities w) as [|p ps]; [by eexists |].
  destruct (Witness.stress_modifiers !! strategy); [by eexists |].
  exists (Witness.stress w). by destruct w.
Qed.

Lemma respond_unfold (question strategy ai_response : string) (roll : Q)
  (w w' : Witness.t) (r : string) :
  Witness.respond question strategy ai_response roll w = (w', Ok r) ->
  exists v,
    r = (if (7 <? v)%Z && Qltb roll 0.3
         then ai_response ++ " (Thinking about hidden motive: "
              ++ Witness.hidden_motive w ++ ")"
         else ai_response) /\
    w' = Witness.set_records
           (Witness.odict_set question r (Witness.testimony w))
           (Witness.deque_append (question, r) (Witness.memory w))
           (Witness.set_stress v w).
Proof.
  unfold Witness.respond, bind.
  destruct (update_stress_keeps strategy w) as [v Hv].
  destruct (Witness.update_stress strategy w) as [w1 [[]|k|]]; [| done..].
  simpl in Hv. subst w1. unfold get_state, modify, ret. simpl.
  intros [= <- <-]. by exists v.
Qed.

(** X13: a witness's memory never holds more than 20 exchanges.  After
    [respond] the new exchange is the last one; while there is room it is
    appended, and when the memory is full the oldest exchange is dropped. *)
Theorem respond_memory_bounded (question strategy ai_response : string) (roll : Q)
  (w w' : Witness.t) (r : string) :
  Witness.respond question strategy ai_response roll w = (w', Ok r) ->
  (length (Witness.memory w) <= 20)%nat ->
  (length (Witness.memory w') <= 20)%nat /\
  last (Witness.memory w') = Some (question, r) /\
  ((length (Witness.memory w) < 20)%nat ->
   Witness.memory w' = (Witness.memory w ++ [(question, r)])%list) /\
  (length (Witness.memory w) = 20%nat ->
   Witness.memory w' = (drop 1 (Witness.memory w) ++ [(question, r)])%list).
Proof.
  intros (v & _ & ->)%respond_unfold Hlen. cbn [Witness.memory Witness.set_records].
  unfold Witness.deque_append, Witness.maxlen.
  case_decide as Hfull.
  - repeat split.
    + rewrite length_app, length_drop. simpl. lia.
    + by rewrite last_snoc.
    + lia.
  - repeat split.
    + rewrite length_app. simpl. lia.
    + by rewrite last_snoc.
    + lia.
Qed.

(** X14: after [respond] the testimony maps the question to the answer just
    given and every other question to what it mapped before; a question
    asked before keeps its place in the record and a new one is added at the
    end, so the questions stay pairwise distinct. *)
Theorem respond_records_testimony (question strategy ai_response : string) (roll : Q)
  (w w' : Witness.t) (r : string) :
  Witness.respond question strategy ai_response roll w = (w', Ok r) ->
  Witness.odict_get question (Witness.testimony w') = Some r /\
  (forall q2, q2 <> question ->
     Witness.odict_get q2 (Witness.testimony w')
     = Witness.odict_get q2 (Witness.testimony w)) /\
  map fst (Witness.testimony w')
  = (if decide (question ∈ map fst (Witness.testimony w))
     then map fst (Witness.testimony w)
     else (map fst (Witness.testimony w) ++ [question])%list) /\
  (NoDup (map fst (Witness.testimony w)) -> NoDup (map fst (Witness.testimony w'))).
Proof.
  intros (v & _ & ->)%respond_unfold. cbn [Witness.testimony Witness.set_records].
  split; [apply odict_get_set_eq |].
  split; [intros q2 Hq2; by apply odict_get_set_ne |].
  split; [| apply odict_set_NoDup].
  rewrite odict_set_keys.
  destruct (Witness.odict_get question (Witness.testimony w)) eqn:E.
  - rewrite decide_True; [done |].
    destruct (decide (question ∈ map fst (Witness.testimony w))) as [|Hn]; [done |].
    apply odict_get_None in Hn. congruence.
  - apply odict_get_None in E. by rewrite decide_False.
Qed.

(** X15: the answer that [respond] returns and records is the model's
    answer, followed by the note on the hidden motive exactly when the
    stress after the update is above 7 and the draw is below 0.3. *)
Theorem respond_reveals_motive_under_stress (question strategy ai_response : string)
  (roll : Q) (w w' : Witness.t) (r : string) :
  Witness.respond question strategy ai_response roll w = (w', Ok r) ->
  ((7 < Witness.stress w')%Z /\ roll < 0.3 ->
   r = ai_response ++ " (Thinking about hidden motive: "
       ++ Witness.hidden_motive w ++ ")") /\
  (~ ((7 < Witness.stress w')%Z /\ roll < 0.3) -> r = ai_response) /\
  Witness.hidden_motive w' = Witness.hidden_motive w /\
  Witness.personalities w' = Witness.personalities w.
Proof.
  intros (v & Hr & ->)%respond_unfold.
  cbn [Witness.stress Witness.set_records Witness.set_stress Witness.hidden_motive
       Witness.personalities].
  split; [| split; [| done]].
  - intros [Hv Hroll]. apply Z.ltb_lt in Hv. apply Qltb_lt in Hroll.
    by rewrite Hv, Hroll in Hr.
  - intros Hn. destruct (7 <? v)%Z eqn:Ev; [| done].
    destruct (Qltb roll 0.3) eqn:Er; [| done].
    exfalso. apply Hn. split; [by apply Z.ltb_lt | by apply Qltb_lt].
Qed.

(** * Dictionaries of evidence and witnesses *)

(** X16: [from_dict] undoes [to_dict], and it returns an evidence only on a
    dictionary that [to_dict] gives for it; on a dictionary that lacks one
    of the four keys it raises [KeyError] on the first one missing, in the
    order type, metadata, authenticated, description. *)
Theorem from_dict_to_dict (e : Evidence) (data : EvidenceDict) :
  from_dict (to_dict e) = Ok e /\
  (from_dict data = Ok e <-> data = to_dict e) /\
  (forall key, from_dict data = KeyError key <->
     (d_type data = None /\ key = "type") \/
     (d_type data <> None /\ d_metadata data = None /\ key = "metadata") \/
     (d_type data <> None /\ d_metadata data <> None /\
      d_authenticated data = None /\ key = "authenticated") \/
     (d_type data <> None /\ d_metadata data <> None /\
      d_authenticated data <> None /\ d_description data = None /\
      key = "description")).
Proof.
  split; [by destruct e |]. split.
  - split; [| intros ->; by destruct e].
    destruct data as [[t|] [m|] [a|] [d|]]; simpl; try done.
    by intros [= <-].
  - intros key.
    destruct data as [[t|] [m|] [a|] [d|]]; simpl;
      (split;
       [ try done; intros [= <-];
         first [ by left | by (right; left) | by (right; right; left)
               | by (right; right; right) ]
       | intros [[? ->] | [(? & ? & ->) | [(? & ? & ? & ->) | (? & ? & ? & ? & ->)]]];
         first [ done | congruence ] ]).
Qed.

(** *** Witnesses through the serializer *)

Lemma odict_set_new (k v : string) (d : list (string * string)) :
  k ∉ map fst d -> Witness.odict_set k v d = (d ++ [(k, v)])%list.
Proof.
  induction d as [|[k' v'] d IH]; simpl; [done |].
  rewrite not_elem_of_cons. intros [Hne Hk].
  destruct (String.eqb_spec k' k); [congruence |]. by rewrite IH.
Qed.

Lemma odict_fold_fresh (items acc : list (string * string)) :
  NoDup (map fst (acc ++ items)) ->
  fold_left (fun d item => Witness.odict_set (fst item) (snd item) d) items acc
  = (acc ++ items)%list.
Proof.
  revert acc. induction items as [|[k v] items IH]; intros acc Hnd; simpl.
  - by rewrite app_nil_r.
  - assert (k ∉ map fst acc) as Hk.
    { rewrite map_app in Hnd. apply NoDup_app in Hnd as (_ & Hdis & _).
      intros Hin. apply (Hdis k Hin). simpl. apply list_elem_of_here. }
    rewrite (odict_set_new k v acc Hk). rewrite IH; [by rewrite <- app_assoc |].
    by rewrite <- app_assoc.
Qed.

Lemma odict_fold_NoDup (items acc : list (string * string)) :
  NoDup (map fst acc) ->
  NoDup (map fst (fold_left (fun d item => Witness.odict_set (fst item) (snd item) d)
                            items acc)).
Proof.
  revert acc. induction items as [|[k v] items IH]; intros acc Hnd; simpl; [done |].
  apply IH. by apply odict_set_NoDup.
Qed.

Lemma deque_of_items_id {A} (items : list A) :
  Serializer.deque_of_items items = items <-> (length items <= 20)%nat.
Proof.
  unfold Serializer.deque_of_items, Witness.maxlen. split.
  - intros H. apply (f_equal length) in H. rewrite length_drop in H. lia.
  - intros H. replace (length items - 20)%nat with 0%nat by lia. apply drop_0.
Qed.

(** X17: a witness comes back from [_deserialize_witness] after
    [_serialize_witness] exactly as it was if and only if its memory holds
    at most 20 exchanges and the questions of its testimony are pairwise
    distinct, as the deque and the ordered dictionary of the program
    guarantee; in any case no key is missing, and the memory comes back as
    its last 20 exchanges. *)
Theorem deserialize_serialize_witness (w : Witness.t) :
  (Serializer.deserialize_witness (Serializer.serialize_witness w) = Ok w
   <-> (length (Witness.memory w) <= 20)%nat /\ NoDup (map fst (Witness.testimony w))) /\
  exists w',
    Serializer.deserialize_witness (Serializer.serialize_witness w) = Ok w' /\
    Witness.memory w'
    = drop (length (Witness.memory w) - 20) (Witness.memory w) /\
    Witness.stress w' = Witness.stress w /\
    Witness.base_stress w' = Witness.base_stress w.
Proof.
  destruct w as [n o p r b s bs h t m].
  unfold Serializer.deserialize_witness, Serializer.serialize_witness. simpl.
  unfold Witness.set_records, Witness.set_stress, Witness.init. simpl.
  split; [| eexists; split; [reflexivity |]; by repeat split].
  split.
  - intros [= Ht Hm]. split.
    + by apply deque_of_items_id.
    + rewrite <- Ht. unfold Serializer.odict_of_items. apply odict_fold_NoDup.
      simpl. apply NoDup_nil_2.
  - intros [Hm Ht]. f_equal. f_equal.
    + unfold Serializer.odict_of_items. by rewrite odict_fold_fresh.
    + by apply deque_of_items_id.
Qed.

(** * Events and game phases *)

(** X18: after [subscribe], an event of that name reaches the listeners
    that were subscribed before, in the same order, and then the new
    listener; events of any other name reach whom they reached before.  A
    listener subscribed twice is called twice. *)
Theorem emit_after_subscribe (event_name : string) (listener : Listener)
  (event : Event.t) (em : EventManager) :
  emit event (subscribe event_name listener em)
  = if decide (Event.name event = event_name)
    then (emit event em ++ [(listener, event)])%list
    else emit event em.
Proof.
  unfold emit, subscribe. cbn [listeners]. case_decide as Hn.
  - rewrite Hn, lookup_insert_eq.
    destruct (listeners em !! event_name) as [l|]; [by rewrite map_app | done].
  - by rewrite lookup_insert_ne.
Qed.

Lemma list_remove_None (x : Listener) (l : list Listener) :
  list_remove x l = None <-> x ∉ l.
Proof.
  induction l as [|y l IH]; simpl.
  - split; [intros _; apply not_elem_of_nil | done].
  - rewrite not_elem_of_cons. case_decide as Hy.
    + split; [done | intros [Hne _]; congruence].
    + destruct (list_remove x l) as [r|].
      * split; [done |]. intros [_ Hx]. by apply IH in Hx.
      * split; [| done]. intros _. split; [congruence | by apply IH].
Qed.

Lemma list_remove_Some (x : Listener) (l r : list Listener) :
  list_remove x l = Some r ->
  exists before after,
    l = (before ++ (x :: after))%list /\ (x ∉ before) /\ r = (before ++ after)%list.
Proof.
  revert r. induction l as [|y l IH]; intros r; simpl; [done |].
  case_decide as Hy.
  - intros [= <-]. exists [], l. subst y. split; [done |]. split; [apply not_elem_of_nil | done].
  - destruct (list_remove x l) as [r'|]; [| done].
    intros [= <-]. destruct (IH r' eq_refl) as (before & after & -> & Hb & ->).
    exists (y :: before), after. split; [done |]. split; [| done].
    rewrite not_elem_of_cons. split; [congruence | done].
Qed.

Lemma list_remove_snoc_fresh (x : Listener) (l : list Listener) :
  x ∉ l -> list_remove x (l ++ [x]) = Some l.
Proof.
  induction l as [|y l IH]; simpl.
  - intros _. by rewrite decide_True.
  - rewrite not_elem_of_cons. intros [Hne Hx].
    rewrite decide_False by congruence. by rewrite IH.
Qed.

(** X19: [unsubscribe] on an event name that was never subscribed to does
    nothing, where on a known event name without that listener it raises
    [ValueError]; otherwise it removes the first subscription of the
    listener and no other, and leaves the other event names alone. *)
Theorem unsubscribe_cases (event_name : string) (listener : Listener)
  (em : EventManager) :
  (listeners em !! event_name = None ->
   unsubscribe event_name listener em = Returned em) /\
  (forall ls, listeners em !! event_name = Some ls -> listener ∉ ls ->
     unsubscribe event_name listener em = ValueError) /\
  (forall ls, listeners em !! event_name = Some ls -> listener ∈ ls ->
     exists em' before after,
       unsubscribe event_name listener em = Returned em' /\
       ls = (before ++ (listener :: after))%list /\ (listener ∉ before) /\
       listeners em' !! event_name = Some (before ++ after)%list /\
       forall other, other <> event_name ->
         listeners em' !! other = listeners em !! other).
Proof.
  unfold unsubscribe. split; [| split].
  - by intros ->.
  - intros ls -> Hl. apply list_remove_None in Hl. by rewrite Hl.
  - intros ls -> Hl.
    destruct (list_remove listener ls) as [r|] eqn:E;
      [| by apply list_remove_None in E].
    destruct (list_remove_Some _ _ _ E) as (before & after & -> & Hb & ->).
    eexists _, before, after. split; [reflexivity |]. split; [done |]. split; [done |].
    cbn [listeners]. split; [by rewrite lookup_insert_eq |].
    intros other Hne. by rewrite lookup_insert_ne.
Qed.

(** X20: unsubscribing a listener right after subscribing it returns, and
    if the listener was not subscribed to that event name before, every
    event reaches exactly the listeners it reached before the two calls. *)
Theorem unsubscribe_after_subscribe (event_name : string) (listener : Listener)
  (em : EventManager) :
  listener ∉ default [] (listeners em !! event_name) ->
  exists em',
    unsubscribe event_name listener (subscribe event_name listener em) = Returned em' /\
    forall event, emit event em' = emit event em.
Proof.
  intros Hfresh. unfold unsubscribe, subscribe. cbn [listeners].
  rewrite lookup_insert_eq.
  destruct (listeners em !! event_name) as [ls|] eqn:E; simpl in Hfresh.
  - rewrite (list_remove_snoc_fresh listener ls Hfresh).
    eexists. split; [reflexivity |]. intros event. unfold emit. cbn [listeners].
    rewrite insert_insert_eq.
    destruct (decide (Event.name event = event_name)) as [-> | Hne].
    + by rewrite lookup_insert_eq, E.
    + by rewrite lookup_insert_ne.
  - simpl. rewrite decide_True by done.
    eexists. split; [reflexivity |]. intros event. unfold emit. cbn [listeners].
    rewrite insert_insert_eq.
    destruct (decide (Event.name event = event_name)) as [-> | Hne].
    + by rewrite lookup_insert_eq, E.
    + by rewrite lookup_insert_ne.
Qed.

(** *** GameState: transitions and undo *)

Lemma set_phase_id (gs : GameState) :
  set_phase (current_phase gs) (history gs) gs = gs.
Proof. by destruct gs. Qed.

Lemma undo_transition_to (phase : GamePhase) (ctx : option (gmap string string))
  (gs : GameState) :
  fst (undo (fst (transition_to phase ctx gs))) = gs.
Proof.
  unfold transition_to, undo. cbn [fst history set_phase].
  rewrite last_snoc, removelast_last. cbn [fst].
  unfold set_phase. cbn. by destruct gs.
Qed.

Lemma run_ops_app (ops1 ops2 : list StateOp) (gs : GameState) :
  fst (run_ops (ops1 ++ ops2) gs) = fst (run_ops ops2 (fst (run_ops ops1 gs))).
Proof.
  revert gs. induction ops1 as [|op ops1 IH]; intros gs; [reflexivity |].
  cbn [app run_ops]. destruct (run_op op gs) as [gs1 c1].
  specialize (IH gs1).
  destruct (run_ops (ops1 ++ ops2) gs1) as [gs2 c2].
  destruct (run_ops ops1 gs1) as [gs3 c3]. cbn [fst] in *. exact IH.
Qed.

Lemma run_ops_transitions_snoc (ts : list (GamePhase * option (gmap string string)))
  (t : GamePhase * option (gmap string string)) (gs : GameState) :
  fst (run_ops (map (fun t => Transition (fst t) (snd t)) (ts ++ [t])) gs)
  = fst (transition_to (fst t) (snd t)
           (fst (run_ops (map (fun t => Transition (fst t) (snd t)) ts) gs))).
Proof.
  rewrite map_app, run_ops_app. cbn [map run_ops run_op].
  by destruct (transition_to _ _ _).
Qed.

(** X21: [undo] takes back the last transition: after any transitions, k
    calls of [undo] (k at most the number of transitions) leave the state as
    it was after all but the last k transitions; phase and history are both
    restored, whatever the listeners. *)
Theorem undo_reverts_transitions (ts : list (GamePhase * option (gmap string string)))
  (k : nat) (gs : GameState) :
  (k <= length ts)%nat ->
  fst (run_ops (map (fun t => Transition (fst t) (snd t)) ts ++ replicate k Undo) gs)
  = fst (run_ops (map (fun t => Transition (fst t) (snd t)) (take (length ts - k) ts)) gs).
Proof.
  induction k as [|k IH]; intros Hk.
  - simpl. by rewrite app_nil_r, Nat.sub_0_r, firstn_all.
  - rewrite replicate_S_end, app_assoc, run_ops_app, IH by lia.
    assert (is_Some (ts !! (length ts - S k)%nat)) as [t Ht]
      by (apply lookup_lt_is_Some; lia).
    replace (length ts - k)%nat with (S (length ts - S k)) by lia.
    rewrite (take_S_r ts _ t Ht), run_ops_transitions_snoc.
    cbn [run_ops run_op].
    destruct (undo _) as [gs' c] eqn:E. cbn [fst].
    change gs' with (fst (gs', c)). rewrite <- E.
    apply undo_transition_to.
Qed.

(** X22: [undo] with an empty history changes nothing and calls no
    listener; otherwise [undo], like [transition_to], calls every listener
    of "state_changed" once, in subscription order, with the phase that is
    current after the call, and the observers registered with
    [add_observer] play no part. *)
Theorem state_changes_notify_listeners (gs : GameState) :
  (history gs = [] -> undo gs = (gs, [])) /\
  (forall phase ctx,
     current_phase (fst (transition_to phase ctx gs)) = phase /\
     history (fst (transition_to phase ctx gs)) = (history gs ++ [current_phase gs])%list /\
     snd (transition_to phase ctx gs)
     = map (fun l => (l, state_changed phase ctx))
           (default [] (listeners (event_manager gs) !! "state_changed"))) /\
  (forall h phase, history gs = (h ++ [phase])%list ->
     current_phase (fst (undo gs)) = phase /\
     history (fst (undo gs)) = h /\
     snd (undo gs)
     = map (fun l => (l, state_changed phase None))
           (default [] (listeners (event_manager gs) !! "state_changed"))) /\
  (forall observer phase ctx,
     snd (transition_to phase ctx (add_observer observer gs))
     = snd (transition_to phase ctx gs) /\
     snd (undo (add_observer observer gs)) = snd (undo gs)).
Proof.
  split; [| split; [| split]].
  - intros H. unfold undo. by rewrite H.
  - intros phase ctx. unfold transition_to, emit. cbn.
    by destruct (listeners (event_manager gs) !! "state_changed").
  - intros h phase H. unfold undo. rewrite H, last_snoc, removelast_last.
    unfold emit. cbn.
    by destruct (listeners (event_manager gs) !! "state_changed").
  - intros observer phase ctx. split; [reflexivity |].
    unfold undo. cbn [history add_observer]. by destruct (last (history gs)).
Qed.

(** * The evidence factory *)

Lemma build_all_length (ctx : BuilderContext) (roll : nat -> Q) (i : nat)
  (selected : list Template) (l : list Evidence) :
  build_all ctx roll i selected = Built l -> length l = length selected.
Proof.
  revert i l. induction selected as [|t selected IH]; intros i l; simpl.
  - by intros [= <-].
  - destruct (build_evidence ctx t (roll i)) as [e| | |]; try done. simpl.
    destruct (build_all ctx roll (S i) selected) as [rest| | |] eqn:E; try done. simpl.
    intros [= <-]. simpl. f_equal. by eapply IH.
Qed.

Lemma length_concat_replicate {A} (n : nat) (l : list A) :
  length (concat (replicate n l)) = (n * length l)%nat.
Proof.
  induction n as [|n IH]; simpl; [done |]. by rewrite length_app, IH.
Qed.

Lemma select_templates_length (sample : list Template -> nat -> list Template)
  (available selected : list Template) (num_evidence : Z) :
  (forall population k, (k <= length population)%nat ->
     length (sample population k) = k) ->
  select_templates sample available num_evidence = Built selected ->
  Z.of_nat (length selected) = num_evidence.
Proof.
  intros Hsample. unfold select_templates, random_sample.
  destruct (Z.ltb_spec (Z.of_nat (length available)) num_evidence) as [Hlt | Hge].
  - destruct (Z.eqb_spec (Z.of_nat (length available)) 0) as [| Hne]; [done |].
    set (len := Z.of_nat (length available)) in *.
    assert (0 < len)%Z as Hpos by lia.
    pose proof (Z.mod_pos_bound num_evidence len Hpos) as Hmod.
    destruct (Z.ltb_spec (num_evidence mod len) 0) as [| _]; [lia |].
    destruct (Z.ltb_spec len (num_evidence mod len)) as [| _]; [lia |].
    simpl. intros [= <-].
    rewrite length_app, length_concat_replicate, Hsample by (unfold len in *; lia).
    rewrite Nat2Z.inj_add, Nat2Z.inj_mul, !Z2Nat.id; try lia.
    + fold len. rewrite (Z.div_mod num_evidence len) at 3 by lia. lia.
    + apply Z.div_pos; lia.
  - destruct (Z.ltb_spec num_evidence 0) as [| Hpos]; [done |].
    destruct (Z.ltb_spec (Z.of_nat (length available)) num_evidence) as [| _]; [lia |].
    simpl. intros [= <-]. rewrite Hsample by lia. lia.
Qed.

(** X23: whenever [generate_evidence] returns, it returns exactly
    [num_evidence] pieces of evidence, also when fewer templates are
    available than pieces are asked for. *)
Theorem generate_evidence_count (sample : list Template -> nat -> list Template)
  (roll : nat -> Q) (templates : list Template) (num_evidence : Z)
  (evidence_templates : list string) (ctx : BuilderContext) (l : list Evidence) :
  (forall population k, (k <= length population)%nat ->
     length (sample population k) = k) ->
  generate_evidence sample roll templates num_evidence evidence_templates ctx = Built l ->
  Z.of_nat (length l) = num_evidence.
Proof.
  intros Hsample. unfold generate_evidence.
  destruct (available_templates templates evidence_templates) as [av| | |]; try done.
  simpl. destruct (select_templates sample av num_evidence) as [sel| | |] eqn:E; try done.
  simpl. intros Hb. rewrite (build_all_length _ _ _ _ _ Hb).
  by eapply select_templates_length.
Qed.

Lemma available_templates_none (templates : list Template) (names : list string) :
  Forall (fun t => exists n, t_name t = Some n /\ n ∉ names) templates ->
  available_templates templates names = Built [].
Proof.
  induction 1 as [|t templates (n & Hn & Hnot) _ IH]; simpl; [done |].
  rewrite Hn, IH. simpl. by rewrite bool_decide_eq_false_2.
Qed.

(** X24: when no template of the file bears one of the names asked for,
    [generate_evidence] raises [ZeroDivisionError] for every positive number
    of pieces, returns the empty list for 0 pieces, and raises the
    [ValueError] of [random.sample] for a negative number. *)
Theorem generate_evidence_without_templates
  (sample : list Template -> nat -> list Template) (roll : nat -> Q)
  (templates : list Template) (num_evidence : Z) (evidence_templates : list string)
  (ctx : BuilderContext) :
  Forall (fun t => exists n, t_name t = Some n /\ n ∉ evidence_templates) templates ->
  sample [] 0%nat = [] ->
  generate_evidence sample roll templates num_evidence evidence_templates ctx
  = if decide (0 < num_evidence)%Z then DivisionByZero
    else if decide (num_evidence = 0)%Z then Built []
    else SampleError.
Proof.
  intros Hnone Hs. unfold generate_evidence.
  rewrite (available_templates_none _ _ Hnone). simpl.
  unfold select_templates, random_sample. cbn [length]. change (Z.of_nat 0) with 0%Z.
  destruct (Z.ltb_spec 0 num_evidence) as [Hpos | Hle].
  - rewrite decide_True by lia. reflexivity.
  - rewrite decide_False by lia.
    destruct (Z.ltb_spec num_evidence 0) as [Hneg | Hnn]; cbn [orb built_bind].
    + by rewrite decide_False by lia.
    + assert (num_evidence = 0)%Z as -> by lia.
      rewrite decide_True by done. change (Z.to_nat 0) with 0%nat. by rewrite Hs.
Qed.

Lemma generate_description_keeps (ctx : BuilderContext) (e e' : Evidence) :
  generate_description ctx e = Built e' ->
  type e' = type e /\ metadata e' = metadata e /\ authenticated e' = authenticated e.
Proof.
  unfold generate_description.
  destruct (String.eqb (type e) "Digital");
    [| destruct (String.eqb (type e) "Physical");
       [| destruct (String.eqb (type e) "Testimonial")]];
    try (destruct (ctx_type ctx); simpl; [| done]); by intros [= <-].
Qed.

(** X25: an evidence that the builder chain returns is authenticated
    exactly when the draw is below 0.7 times the authentication modifier of
    the case (1.0 when the case gives none).  It carries the kind and the
    impact metric of its template, so on it [calculate_impact] can only
    raise for a kind outside Digital, Physical and Testimonial. *)
Theorem build_evidence_authenticated (ctx : BuilderContext) (template : Template)
  (roll : Q) (e : Evidence) :
  build_evidence ctx template roll = Built e ->
  (authenticated e = true <-> roll < 0.7 * authentication_modifier ctx) /\
  (difficulty_modifiers ctx = None -> (authenticated e = true <-> roll < 0.7)) /\
  t_type template = Some (type e) /\
  impact_metric (metadata e) = t_impact_metric template /\
  (forall j key, calculate_impact e j = KeyError key ->
     key = type e /\ type e ∉ known_kinds).
Proof.
  unfold build_evidence.
  destruct (t_type template) as [ty|]; [| done].
  destruct (t_subtype template) as [st|]; [| done].
  destruct (t_description template) as [ds|]; [| done].
  destruct (t_impact_metric template) as [im|]; [| done]. simpl.
  destruct (generate_description ctx _) as [e1| | |] eqn:E; try done. simpl.
  intros [= <-]. apply generate_description_keeps in E as (Ht & Hm & _).
  simpl in Ht, Hm. cbn [authenticated authenticate_evidence type metadata].
  split; [apply Qltb_lt |]. split.
  - intros Hnone. rewrite Qltb_lt. unfold authentication_modifier, dict_get.
    rewrite Hnone. cbn [default]. rewrite lookup_empty. cbn [default].
    assert (0.7 * 1.0 == 0.7) as -> by (by vm_compute). reflexivity.
  - rewrite Ht, Hm. simpl. split; [done |]. split; [done |].
    intros j key Hk.
    destruct (decide (ty ∈ known_kinds)) as [Hin | Hnot].
    + rewrite (calculate_impact_known _ j im) in Hk;
        [done | cbn; by rewrite Hm | cbn; by rewrite Ht].
    + rewrite (calculate_impact_unknown _ j im) in Hk;
        [| cbn; by rewrite Hm | cbn; by rewrite Ht].
      injection Hk as <-. cbn. by rewrite Ht.
Qed.

(** * Deliberation and verdict as a whole *)

Lemma replay_error_app (events1 events2 : list TrialEvent) :
  replay_error (events1 ++ events2) = None
  <-> replay_error events1 = None /\ replay_error events2 = None.
Proof. by rewrite !replay_error_None, Forall_app. Qed.

Lemma replay_error_presented (e : Evidence) (ctx : CaseContext) (s : list Juror) :
  evidence_error e = None -> replay_error (map (presented e ctx) s) = None.
Proof.
  intros He. apply replay_error_None, Forall_forall.
  intros ev (o & -> & _)%list_elem_of_fmap. by apply evidence_error_None.
Qed.

Lemma deliberate_phase_outcome (jury : Jury) :
  snd (deliberate_phase jury)
  = match jurors jury with
    | [] => Ok tt
    | _ => outcome_of (replay_error (trial_events jury))
    end.
Proof.
  rewrite deliberate_phase_as_ordered. destruct jury as [s events]. cbn [jurors trial_events].
  destruct (replay_error events) as [key|] eqn:E.
  - by rewrite (deliberate_phase_in_raises events s _ key E (Permutation_refl _)).
  - rewrite (deliberate_phase_in_permutation_ok events s _ E (Permutation_refl _)).
    by destruct s.
Qed.

Lemma assess_all_outcome (ctx : CaseContext) (selected : list (string * Evidence))
  (jury : Jury) :
  jurors jury <> [] ->
  let run := for_each selected (fun item => assess_case (snd item) ctx) jury in
  jurors (fst run) <> [] /\
  (is_ok (snd run) = true <-> Forall (fun item => evidence_ok (snd item)) selected) /\
  (is_ok (snd run) = true ->
   (replay_error (trial_events (fst run)) = None
    <-> replay_error (trial_events jury) = None)).
Proof.
  revert jury. induction selected as [|[desc e] selected IH]; intros jury Hne; cbn zeta.
  - simpl. split; [done |]. split; [| done]. split; [constructor | done].
  - cbn [for_each snd]. unfold bind. rewrite Forall_cons. cbn [snd].
    rewrite <- evidence_error_None.
    destruct (evidence_error e) as [key|] eqn:He.
    + pose proof (assess_case_unfold e ctx jury) as Hu.
      destruct jury as [[|j s] log0]; [done |].
      rewrite Hu. cbn [jurors length seq for_each]. unfold bind at 1.
      unfold assess_juror, bind, on_juror. cbn [jurors lookup list_lookup].
      rewrite (evaluate_evidence_raises e ctx j key (calculate_impact_fails e j key He)).
      cbn. split; [done |]. split; [| done]. split; [done | by intros [? _]].
    + rewrite (assess_case_returns e ctx jury He).
      destruct (IH {| jurors := map (evaluated e ctx) (jurors jury);
                      trial_events := (trial_events jury
                                       ++ map (presented e ctx) (jurors jury))%list |})
        as (H1 & H2 & H3).
      { cbn [jurors]. by destruct (jurors jury). }
      cbn zeta in H1, H2, H3. cbn [trial_events] in H3.
      split; [exact H1 |]. split.
      * rewrite H2. split; [by intros ? | by intros [_ ?]].
      * intros Hok. rewrite (H3 Hok), replay_error_app.
        pose proof (replay_error_presented e ctx (jurors jury) He). tauto.
Qed.

(** X26: on a jury that has a juror, [deliberation_and_verdict] returns
    exactly when every selected piece of evidence and every evidence event
    already in the log carries a base impact and one of the three kinds;
    on a jury without jurors it always returns.  What it returns is
    "Guilty" or "Not Guilty". *)
Theorem deliberation_and_verdict_returns_iff (selected : list (string * Evidence))
  (ctx : CaseContext) (jury : Jury) :
  (jurors jury <> [] ->
   (is_ok (snd (deliberation_and_verdict selected ctx jury)) = true
    <-> Forall (fun item => evidence_ok (snd item)) selected /\
        Forall event_ok (trial_events jury))) /\
  (jurors jury = [] ->
   deliberation_and_verdict selected ctx jury = (jury, Ok "Not Guilty")) /\
  (forall verdict,
     snd (deliberation_and_verdict selected ctx jury) = Ok verdict ->
     verdict = "Guilty" \/ verdict = "Not Guilty").
Proof.
  split; [| split].
  - intros Hne. destruct (assess_all_outcome ctx selected jury Hne) as (H1 & H2 & H3).
    cbn zeta in H1, H2, H3. unfold deliberation_and_verdict, bind.
    destruct (for_each selected _ jury) as [jury1 [[]|key|]] eqn:Erun;
      cbn [fst snd is_ok] in *.
    + pose proof (deliberate_phase_outcome jury1) as Hd.
      destruct (deliberate_phase jury1) as [jury2 r2]. cbn [snd] in Hd. subst r2.
      destruct (jurors jury1) as [|j1 s1] eqn:Ej; [done |].
      rewrite <- replay_error_None, <- (H3 eq_refl).
      destruct (replay_error (trial_events jury1)) as [key|]; cbn [outcome_of].
      * split; [done | by intros [_ ?]].
      * unfold get_state, ret. cbn. split; [intros _; split; [by apply H2 | done] | done].
    + split; [done |]. intros [Hsel _]. apply H2 in Hsel. done.
    + split; [done |]. intros [Hsel _]. apply H2 in Hsel. done.
  - intros Hnil. destruct jury as [s log0]. cbn [jurors] in Hnil. subst s.
    unfold deliberation_and_verdict, bind.
    assert (for_each selected (fun item => assess_case (snd item) ctx)
              {| jurors := []; trial_events := log0 |}
            = ({| jurors := []; trial_events := log0 |}, Ok tt)) as ->.
    { induction selected as [|item selected IH]; [reflexivity |].
      cbn [for_each]. unfold bind. rewrite assess_case_unfold. cbn. exact IH. }
    reflexivity.
  - intros verdict. unfold deliberation_and_verdict, bind.
    destruct (for_each selected _ jury) as [jury1 [[]|key|]]; [| done..].
    destruct (deliberate_phase jury1) as [jury2 [[]|key|]]; [| done..].
    unfold get_state, ret. cbn. intros [= <-]. unfold get_verdict.
    destruct (Qltb 0 _); [by left | by right].
Qed.

(** * Texts *)

Lemma string_app_assoc (s1 s2 s3 : string) : (s1 ++ s2) ++ s3 = s1 ++ (s2 ++ s3).
Proof.
  induction s1 as [|c s1 IH]; [done |].
  change (String c ((s1 ++ s2) ++ s3) = String c (s1 ++ s2 ++ s3)). by rewrite IH.
Qed.

Lemma summary_from_prefix (items : list (string * string)) (i : nat)
  (prefix tail : string) :
  exists text, summary_from i items (prefix ++ tail) = prefix ++ text.
Proof.
  revert i tail. induction items as [|[q a] items IH]; intros i tail; simpl.
  - by exists tail.
  - rewrite string_app_assoc. apply IH.
Qed.

(** X27: [get_previous_testimony] answers "No previous testimony." exactly
    when the witness has no testimony; otherwise the text begins with
    "Question 1: " and the first question asked. *)
Theorem get_previous_testimony_empty_iff (w : Witness.t) :
  (get_previous_testimony w = "No previous testimony." <-> Witness.testimony w = []) /\
  (forall q a rest, Witness.testimony w = (q, a) :: rest ->
     exists text, get_previous_testimony w = "Question 1: " ++ q ++ text).
Proof.
  assert (forall q a rest, Witness.testimony w = (q, a) :: rest ->
            exists text, get_previous_testimony w = "Question 1: " ++ q ++ text) as H.
  { intros q a rest E. unfold get_previous_testimony. rewrite E. cbn [summary_from].
    assert ("" ++ "Question " ++ pretty (0 + 1)%nat ++ ": " ++ q ++ newline
            ++ "Answer " ++ pretty (0 + 1)%nat ++ ": " ++ a ++ newline
            = ("Question 1: " ++ q) ++ (newline ++ "Answer 1: " ++ a ++ newline)) as ->.
    { change (pretty (0 + 1)%nat) with "1". by rewrite !string_app_assoc. }
    destruct (summary_from_prefix rest 1 ("Question 1: " ++ q)
                (newline ++ "Answer 1: " ++ a ++ newline)) as [text ->].
    exists text. by rewrite string_app_assoc. }
  split; [| exact H].
  destruct (Witness.testimony w) as [|[q a] rest] eqn:E.
  - unfold get_previous_testimony. by rewrite E.
  - destruct (H q a rest eq_refl) as [text ->]. split; [| done].
    cbv [String.append]. discriminate.
Qed.

(** X28: [BackstoryGenerator.generate] raises [KeyError] on the first key
    that the witness data lacks, so ["name"] for an empty dictionary; on the
    witness data that [CaseFactory.generate_case] builds it returns a text
    that begins " has been with TechCorp for ": the name is empty there. *)
Theorem generate_backstory (case_type : string) (witness_data : WitnessData) :
  (wd_name witness_data = None -> generate case_type witness_data = KeyError "name") /\
  (is_ok (generate case_type witness_data) = true <->
   is_Some (wd_name witness_data) /\ is_Some (wd_company witness_data) /\
   is_Some (wd_years witness_data) /\ is_Some (wd_role witness_data) /\
   is_Some (wd_achievement witness_data) /\ is_Some (wd_responsibility witness_data) /\
   is_Some (wd_suspicious_activity witness_data) /\
   is_Some (wd_security_record witness_data)) /\
  (forall years role achievement suspicious responsibility security,
     exists text,
       generate case_type
         (case_witness_data years role achievement suspicious responsibility security)
       = Ok (" has been with TechCorp for " ++ pretty years ++ text)).
Proof.
  split; [intros H; unfold generate; by rewrite H | split].
  - destruct witness_data as [[n|] [c|] [y|] [r|] [a|] [sa|] [rs|] [sr|]]; simpl;
      (split; [try done; intros _; repeat split; by eexists
              | intros (H1 & H2 & H3 & H4 & H5 & H6 & H7 & H8);
                first [ done
                      | by destruct H1 | by destruct H2 | by destruct H3
                      | by destruct H4 | by destruct H5 | by destruct H6
                      | by destruct H7 | by destruct H8 ]]).
  - intros years role achievement suspicious responsibility security.
    eexists. unfold generate, case_witness_data. cbn [wd_name wd_company wd_years wd_role
      wd_achievement wd_suspicious_activity wd_responsibility wd_security_record
      index result_bind].
    reflexivity.
Qed.

(** * Further concrete runs *)

(** X2 on digital evidence before a jury of three. *)
Lemma assess_case_logs_one_event_per_juror_witness :
  evidence_ok digital_evidence /\
  length (trial_events (fst (assess_case digital_evidence media_case jury3)))
  = (length (trial_events jury3) + length (jurors jury3))%nat.
Proof.
  assert (evidence_ok digital_evidence) as H.
  { split; [by eexists |]. apply (bool_decide_unpack _). vm_compute. exact I. }
  split; [exact H |].
  exact (proj2 (proj2 (assess_case_logs_one_event_per_juror
                         digital_evidence media_case jury3 H))).
Defined.

(** X3 on the evidence of kind "Test". *)
Lemma assess_case_raises_unchanged_witness :
  evidence_error test_evidence = Some "Test" /\
  assess_case test_evidence plain_case jury3 = (jury3, KeyError "Test").
Proof.
  assert (evidence_error test_evidence = Some "Test") as H by (vm_compute; reflexivity).
  split; [exact H |].
  exact (assess_case_raises_unchanged test_evidence plain_case jury3 "Test" H).
Defined.

(** X4 on a jury of three whose log already holds three events. *)
Lemma deliberation_replays_evidence_per_juror_witness :
  evidence_ok digital_evidence /\
  Forall event_ok (trial_events jury3) /\
  exists jury',
    bind (assess_case digital_evidence media_case) (fun _ => deliberate_phase) jury3
    = (jury', Ok tt).
Proof.
  assert (evidence_ok digital_evidence) as H.
  { split; [by eexists |]. apply (bool_decide_unpack _). vm_compute. exact I. }
  assert (Forall event_ok (trial_events jury3)) as Hlog.
  { constructor; [exact H | repeat constructor]. }
  split; [exact H |]. split; [exact Hlog |].
  destruct (deliberation_replays_evidence_per_juror digital_evidence media_case jury3
              H Hlog) as (jury' & Hrun & _).
  by exists jury'.
Defined.

(** X5 on the three jurors with ids 1, 2, 3. *)
Lemma peer_influence_zero_sum_witness :
  NoDup (map id (jurors jury3)) /\
  Qsum (map (fun self => sentiment (fst (for_each (jurors jury3) peer_step self)))
            (jurors jury3))
  == Qsum (map sentiment (jurors jury3)).
Proof.
  assert (NoDup (map id (jurors jury3))) as H.
  { apply (bool_decide_unpack _). vm_compute. exact I. }
  split; [exact H |].
  exact (proj2 (peer_influence_zero_sum (jurors jury3) H)).
Defined.

(** X7: a jury that would vote "Guilty" still does after an examination in
    which the player objects to the first question. *)
Lemma raise_objection_never_writes_witness :
  get_verdict convinced_jury = "Guilty" /\
  get_verdict
    (fst (examine_witnesses selected_pair
            [(contested_question, quiet_question, quiet_question)] convinced_jury))
  = "Guilty".
Proof.
  assert (get_verdict convinced_jury = "Guilty") as H by reflexivity.
  split; [exact H |].
  exact (proj2 (proj2 raise_objection_never_writes selected_pair _ convinced_jury) H).
Defined.

(** X8: a jury at 2 and -1 is "Guilty" and stays so at 2 and 0. *)
Lemma get_verdict_monotone_witness :
  get_verdict leaning_jury = "Guilty" /\ get_verdict convinced_jury = "Guilty".
Proof.
  assert (get_verdict leaning_jury = "Guilty") as H by reflexivity.
  split; [exact H |].
  apply (get_verdict_monotone leaning_jury convinced_jury); [| exact H].
  repeat constructor; simpl; by vm_compute.
Defined.

(** X12 on a nervous witness at stress 6. *)
Lemma update_stress_direction_witness :
  (0 <= Witness.stress nervous_witness <= 10)%Z /\
  (Witness.stress (fst (Witness.update_stress "Friendly" nervous_witness))
   <= Witness.stress nervous_witness)%Z.
Proof.
  assert (0 <= Witness.stress nervous_witness <= 10)%Z as H by (simpl; lia).
  split; [exact H |].
  apply (proj1 (proj2 (update_stress_direction nervous_witness H))).
  simpl. discriminate.
Defined.

(** X13, X14 and X15 on an aggressive question to the nervous witness: the
    stress goes from 6 to 9 and the draw 0.1 is below 0.3. *)
Lemma respond_memory_bounded_witness :
  (length (Witness.memory nervous_witness) <= 20)%nat /\
  last (Witness.memory
          (fst (Witness.respond "Where were you?" "Aggressive" "At home." 0.1
                  nervous_witness)))
  = Some ("Where were you?",
          "At home. (Thinking about hidden motive: Fear of reprisal)").
Proof.
  assert (length (Witness.memory nervous_witness) <= 20)%nat as H by (simpl; lia).
  assert (Witness.respond "Where were you?" "Aggressive" "At home." 0.1 nervous_witness
          = (fst (Witness.respond "Where were you?" "Aggressive" "At home." 0.1
                    nervous_witness),
             Ok "At home. (Thinking about hidden motive: Fear of reprisal)")) as Hrun
    by (vm_compute; reflexivity).
  split; [exact H |].
  exact (proj1 (proj2 (respond_memory_bounded _ _ _ _ _ _ _ Hrun H))).
Defined.

Lemma respond_records_testimony_witness :
  Witness.odict_get "Where were you?"
    (Witness.testimony
       (fst (Witness.respond "Where were you?" "Aggressive" "At home." 0.1
               nervous_witness)))
  = Some "At home. (Thinking about hidden motive: Fear of reprisal)".
Proof.
  assert (Witness.respond "Where were you?" "Aggressive" "At home." 0.1 nervous_witness
          = (fst (Witness.respond "Where were you?" "Aggressive" "At home." 0.1
                    nervous_witness),
             Ok "At home. (Thinking about hidden motive: Fear of reprisal)")) as Hrun
    by (vm_compute; reflexivity).
  exact (proj1 (respond_records_testimony _ _ _ _ _ _ _ Hrun)).
Defined.

Lemma respond_reveals_motive_under_stress_witness :
  Witness.respond "Where were you?" "Neutral" "At home." 0.1 nervous_witness
  = (fst (Witness.respond "Where were you?" "Neutral" "At home." 0.1 nervous_witness),
     Ok "At home.") /\
  Witness.hidden_motive
    (fst (Witness.respond "Where were you?" "Neutral" "At home." 0.1 nervous_witness))
  = Witness.hidden_motive nervous_witness.
Proof.
  assert (Witness.respond "Where were you?" "Neutral" "At home." 0.1 nervous_witness
          = (fst (Witness.respond "Where were you?" "Neutral" "At home." 0.1
                    nervous_witness), Ok "At home.")) as H by (vm_compute; reflexivity).
  split; [exact H |].
  exact (proj1 (proj2 (proj2 (respond_reveals_motive_under_stress _ _ _ _ _ _ _ H)))).
Defined.

(** X20 on a manager without listeners. *)
Lemma unsubscribe_after_subscribe_witness :
(7%nat ∉ default [] (listeners EventManager_init !! "state_changed")) /\
  exists em',
    unsubscribe "state_changed" 7%nat (subscribe "state_changed" 7%nat EventManager_init)
    = Returned em' /\
    forall event, emit event em' = emit event EventManager_init.
Proof.
  assert (7%nat ∉ default [] (listeners EventManager_init !! "state_changed")) as H
    by (simpl; apply not_elem_of_nil).
  split; [exact H |].
  exact (unsubscribe_after_subscribe "state_changed" 7%nat EventManager_init H).
Defined.

(** X21 as in the repository's test: three transitions and two undos lead
    back to the state after the first transition. *)
Lemma undo_reverts_transitions_witness :
  (2 <= length three_transitions)%nat /\
  current_phase
    (fst (run_ops (map (fun t => Transition (fst t) (snd t)) three_transitions
                   ++ replicate 2 Undo)
                  (GameState_init EventManager_init)))
  = CASE_PREPARATION.
Proof.
  assert (2 <= length three_transitions)%nat as H by (simpl; lia).
  split; [exact H |].
  rewrite (undo_reverts_transitions three_transitions 2
             (GameState_init EventManager_init) H).
  reflexivity.
Defined.

(** X23: five pieces asked for with two templates available. *)
Lemma generate_evidence_count_witness :
  match generate_evidence first_k half_roll [logs_template; statement_template] 5
          ["Server Logs"; "Statement"] theft_context with
  | Built l => Z.of_nat (length l) = 5%Z
  | _ => False
  end.
Proof.
  destruct (generate_evidence first_k half_roll [logs_template; statement_template] 5
              ["Server Logs"; "Statement"] theft_context) as [l| | |] eqn:E;
    [| vm_compute in E; discriminate E ..].
  apply (generate_evidence_count first_k half_roll [logs_template; statement_template] 5
           ["Server Logs"; "Statement"] theft_context l); [| exact E].
  intros population k Hk. unfold first_k. rewrite length_take. lia.
Defined.

(** X24 on the fixture of the repository's test: no template name asked for
    and two pieces of evidence. *)
Lemma generate_evidence_without_templates_witness :
  generate_evidence first_k half_roll [test_template] 2 [] theft_context
  = DivisionByZero.
Proof.
  refine (generate_evidence_without_templates first_k half_roll [test_template] 2 []
            theft_context _ _).
  - repeat constructor. exists "Test Evidence". split; [reflexivity | apply not_elem_of_nil].
  - reflexivity.
Defined.

(** X25 with a draw of 1/2 and no modifier: the evidence is authenticated. *)
Lemma build_evidence_authenticated_witness :
  match build_evidence theft_context logs_template 0.5 with
  | Built e => authenticated e = true <-> 0.5 < 0.7
  | _ => False
  end.
Proof.
  destruct (build_evidence theft_context logs_template 0.5) as [e| | |] eqn:E;
    [| vm_compute in E; discriminate E ..].
  exact (proj1 (proj2 (build_evidence_authenticated theft_context logs_template 0.5 e E))
           eq_refl).
Defined.
